(** * Legislative-AI-agent: the analysis pipeline, embedded and verified

    A shallow embedding of [main.py] and of the modules it runs:
    [src/pdf_extractor.py], [src/gemini_analyzer.py], [src/json_compiler.py],
    and of the analysis handler of [streamlit_app.py].

    Conventions of the embedding:
    - a Python [str] is a [string]; one [ascii] stands for one character
      (code points 0 to 255), and whitespace is what [str.isspace] accepts
      in that range;
    - a Python [dict] is an association list in insertion order (the order
      [json.dump] writes), a Python [list] is a [list];
    - the outside world (the PDF library, the LLM service, the clock, the
      file system's permissions) is an [Env] of oracles; effects on the
      file system and the calls made are threaded through a [World];
    - a Python exception is the [Raise] branch of [Result];
    - opening a file for writing creates or empties it; a write that raises
      after that leaves the bytes that had reached the file, and a file that
      cannot be opened is left as it was;
    - the program never mutates a dictionary or list after storing it in
      the report, so a stored object is modelled by its value;
    - console output ([print]) is not modelled. *)

From Stdlib Require Import Ascii String ZArith NArith Lia DecimalString.
From stdpp Require Import gmap strings list fin_maps.


(** ** Python strings *)

Module PyStr.

Definition nl : ascii := "010"%char.
Definition NL : string := String nl "".
Definition dq : string := String "034"%char "".

(** [str.isspace] on one character, for code points below 256. *)
Definition isspace (c : ascii) : bool :=
  let n := N_of_ascii c in
  ((9 <=? n) && (n <=? 13) || (28 <=? n) && (n <=? 32)
   || (n =? 133) || (n =? 160))%N.

(** [bool(s)]: a string is truthy when it is not empty. *)
Definition truthy (s : string) : bool :=
  match s with "" => false | String _ _ => true end.

Fixpoint lstrip (s : string) : string :=
  match s with
  | "" => ""
  | String c s' => if isspace c then lstrip s' else s
  end.

Fixpoint rstrip (s : string) : string :=
  match s with
  | "" => ""
  | String c s' =>
      match rstrip s' with
      | "" => if isspace c then "" else String c ""
      | r => String c r
      end
  end.

(** [s.strip()] *)
Definition strip (s : string) : string := rstrip (lstrip s).

(** [s.split(sep)] for a separator of one character. *)
Fixpoint split_on (sep : ascii) (s : string) : list string :=
  match s with
  | "" => [""]
  | String c s' =>
      if Ascii.eqb c sep then "" :: split_on sep s'
      else match split_on sep s' with
           | [] => [String c ""]
           | l :: ls => String c l :: ls
           end
  end.

(** [sep.join(ls)] *)
Fixpoint join (sep : string) (ls : list string) : string :=
  match ls with
  | [] => ""
  | x :: rest =>
      match rest with
      | [] => x
      | _ :: _ => x +:+ sep +:+ join sep rest
      end
  end.

(** [s[:n]] for a stop [n >= 0]. *)
Fixpoint slice_to (n : N) (s : string) : string :=
  match s with
  | "" => ""
  | String c s' =>
      if (n =? 0)%N then "" else String c (slice_to (N.pred n) s')
  end.

(** [l[:n]] on a list. *)
Definition list_slice_to {A} (n : nat) (l : list A) : list A := take n l.

(** [str(n)] for an integer. *)
Definition str_of_Z (z : Z) : string := NilZero.string_of_int (Z.to_int z).

(** Observations used to state properties of lines. *)
Definition leading_ws (s : string) : bool :=
  match s with "" => false | String c _ => isspace c end.

Fixpoint trailing_ws (s : string) : bool :=
  match s with
  | "" => false
  | String c s' =>
      match s' with "" => isspace c | String _ _ => trailing_ws s' end
  end.

Fixpoint all_space (s : string) : bool :=
  match s with "" => true | String c s' => isspace c && all_space s' end.

Fixpoint has_char (c : ascii) (s : string) : bool :=
  match s with
  | "" => false
  | String d s' => Ascii.eqb d c || has_char c s'
  end.

(** The lines of a text: the pieces between newlines; the empty text has
    no line. *)
Definition lines_of (s : string) : list string :=
  match s with "" => [] | String _ _ => split_on nl s end.

End PyStr.

Import PyStr.

(** ** JSON values and Python dictionaries *)

(** The values the report holds.  A dictionary keeps its keys in
    insertion order. *)
#[warnings="-register-all"]
Inductive json : Type :=
| JNull
| JInt (z : Z)
| JStr (s : string)
| JList (items : list json)
| JDict (kvs : list (string * json)).

Definition pydict : Type := list (string * json).

Module PyDict.

(** [d.get(k)] *)
Fixpoint get (k : string) (d : pydict) : option json :=
  match d with
  | [] => None
  | (k', v) :: d' => if String.eqb k' k then Some v else get k d'
  end.

(** [d.get(k, default)] *)
Definition get_default (k : string) (default : json) (d : pydict) : json :=
  match get k d with Some v => v | None => default end.

(** [d[k] = v]: an existing key keeps its place, a new key goes last. *)
Fixpoint set (k : string) (v : json) (d : pydict) : pydict :=
  match d with
  | [] => [(k, v)]
  | (k', v') :: d' =>
      if String.eqb k' k then (k, v) :: d' else (k', v') :: set k v d'
  end.

Definition keys (d : pydict) : list string := map fst d.

End PyDict.

(** [json.dumps(obj, indent=2, ensure_ascii=False)] *)
Module Json.

Definition hex_digit (n : N) : ascii :=
  ascii_of_N (if (n <? 10)%N then 48 + n else 87 + n).

(** What [json.encoder.ESCAPE_DCT] gives for one character; with
    [ensure_ascii=False] only the quote, the backslash and the control
    characters below 0x20 are escaped. *)
Definition escape_char (c : ascii) : string :=
  let n := N_of_ascii c in
  if (n =? 34)%N then "\" +:+ dq
  else if (n =? 92)%N then "\\"
  else if (n =? 8)%N then "\b"
  else if (n =? 12)%N then "\f"
  else if (n =? 10)%N then "\n"
  else if (n =? 13)%N then "\r"
  else if (n =? 9)%N then "\t"
  else if (n <? 32)%N then
    "\u00" +:+ String (hex_digit (n / 16)) (String (hex_digit (n mod 16)) "")
  else String c "".

Fixpoint escape (s : string) : string :=
  match s with
  | "" => ""
  | String c s' => escape_char c +:+ escape s'
  end.

Definition encode_basestring (s : string) : string := dq +:+ escape s +:+ dq.

Fixpoint spaces (n : nat) : string :=
  match n with O => "" | S n' => String " " (spaces n') end.

Definition newline_indent (level : nat) : string := NL +:+ spaces (2 * level).

Fixpoint encode (level : nat) (j : json) : string :=
  match j with
  | JNull => "null"
  | JInt z => str_of_Z z
  | JStr s => encode_basestring s
  | JList [] => "[]"
  | JList items =>
      "[" +:+ newline_indent (S level)
      +:+ join ("," +:+ newline_indent (S level)) (map (encode (S level)) items)
      +:+ newline_indent level +:+ "]"
  | JDict [] => "{}"
  | JDict kvs =>
      "{" +:+ newline_indent (S level)
      +:+ join ("," +:+ newline_indent (S level))
            (map (fun kv => encode_basestring (fst kv) +:+ ": "
                            +:+ encode (S level) (snd kv)) kvs)
      +:+ newline_indent level +:+ "}"
  end.

Definition dumps (j : json) : string := encode 0 j.

End Json.

(** The UTF-8 encoding of a text: what a file opened with
    [encoding='utf-8'] holds on disk. *)
Definition byte_of_N (n : N) : Byte.byte :=
  match Byte.of_N n with Some b => b | None => Byte.x00 end.

Definition utf8_char (c : ascii) : list Byte.byte :=
  let n := N_of_ascii c in
  if (n <? 128)%N then [byte_of_N n]
  else [byte_of_N (192 + n / 64); byte_of_N (128 + n mod 64)].

Fixpoint utf8_encode (s : string) : list Byte.byte :=
  match s with
  | "" => []
  | String c s' => utf8_char c ++ utf8_encode s'
  end.

(** ** Paths ([pathlib.Path] on a POSIX system) *)

Module Path.

(** A path is its root (empty for a relative path, one slash, or two
    slashes when the string starts with exactly two) and its components. *)
Record t : Type := { root : string; parts : list string }.

(** The components of a string: empty ones and [.] are dropped. *)
Definition components (s : string) : list string :=
  List.filter (fun x => truthy x && negb (String.eqb x ".")) (split_on "/"%char s).

(** [Path(s)] *)
Definition of_str (s : string) : t :=
  match s with
  | String "/" (String "/" rest) =>
      match rest with
      | String "/" _ => {| root := "/"; parts := components rest |}
      | _ => {| root := "//"; parts := components rest |}
      end
  | String "/" rest => {| root := "/"; parts := components rest |}
  | _ => {| root := ""; parts := components s |}
  end.

(** [str(p)] *)
Definition to_str (p : t) : string :=
  match root p, parts p with
  | "", [] => "."
  | r, ps => r +:+ join "/" ps
  end.

(** [p / name] *)
Definition div (p : t) (name : string) : t :=
  let q := of_str name in
  if truthy (root q) then q
  else {| root := root p; parts := parts p ++ parts q |}.

(** [p.parent] *)
Definition parent (p : t) : t :=
  match parts p with
  | [] => p
  | _ :: _ => {| root := root p; parts := removelast (parts p) |}
  end.

End Path.

(** ** Results, the world and the environment *)

(** The outcome of a call: a value, or an exception with its message
    ([str(e)]). *)
Inductive Result (A : Type) : Type :=
| Ok (a : A)
| Raise (e : string).
Arguments Ok {A} a.
Arguments Raise {A} e.

(** What [pdfplumber] shows of an opened document: for each page the
    result of [page.extract_text(...)] ([None] or a string), and the
    document information dictionary ([None] when there is none). *)
Record Pdf : Type := {
  pages : list (option string);
  metadata : option (list (string * string))
}.

(** The pydantic schemas of [gemini_analyzer.py]. *)
Record ActSummary : Type := {
  purpose : string;
  key_definitions : string;
  summary_eligibility : string;
  summary_obligations : string;
  enforcement : string
}.

Record LegislativeSections : Type := {
  definitions : string;
  obligations : string;
  responsibilities : string;
  eligibility : string;
  payments : string;
  penalties : string;
  record_keeping : string
}.

Record RuleCheck : Type := {
  rule : string;
  status : string;
  evidence : string;
  confidence : Z
}.

(** Effects that leave a mark: documents opened, prompts sent, directories
    made, files written. *)
Inductive Event : Type :=
| EvPdfOpen (path : string)
| EvLLM (prompt : string)
| EvMkdir (path : string)
| EvWrite (path : string).

Record World : Type := {
  files : gmap string (list Byte.byte);
  trace : list Event
}.

(** The collaborators the program does not control.  The answers of the
    LLM service and of the clock may depend on the moment of the call,
    given as the number of events so far. *)
Record Env : Type := {
  path_exists : string -> bool;
  pdfplumber_open : string -> Result Pdf;
  getenv_api_key : option string;
  datetime_now : nat -> string;
  structured_summary : nat -> string -> Result ActSummary;
  structured_sections : nat -> string -> Result LegislativeSections;
  structured_rule : nat -> string -> Result RuleCheck;
  llm_content : nat -> string -> Result string;
  mkdir_ok : string -> bool;
  (** [open_w_ok p]: [p] can be opened for writing and all that is written
      reaches the file. *)
  open_w_ok : string -> bool;
  (** What a write to [p] that does not go through leaves behind: [None]
      when [p] could not be opened, so the file is as it was; [Some k]
      when [p] was opened, hence created or emptied, and the write raised
      after [k] bytes had reached the file. *)
  write_left : string -> option nat
}.

(** ** The monad of effectful code: state and exceptions *)

Definition M (A : Type) : Type := World -> Result A * World.

Definition ret {A} (a : A) : M A := fun w => (Ok a, w).

Definition bind {A B} (m : M A) (k : A -> M B) : M B :=
  fun w =>
    match m w with
    | (Ok a, w') => k a w'
    | (Raise e, w') => (Raise e, w')
    end.

Definition raise {A} (e : string) : M A := fun w => (Raise e, w).

(** [try: m  except Exception as e: h e] *)
Definition try_except {A} (m : M A) (h : string -> M A) : M A :=
  fun w =>
    match m w with
    | (Ok a, w') => (Ok a, w')
    | (Raise e, w') => h e w'
    end.

Notation "x <- m ;; k" := (bind m (fun x => k))
  (at level 100, m at next level, right associativity).
Notation "m ;;; k" := (bind m (fun _ => k))
  (at level 100, right associativity).

Definition log (ev : Event) (w : World) : World :=
  {| files := files w; trace := trace w ++ [ev] |}.

(** A call raises when it ends in an exception. *)
Definition raises {A} (m : M A) (w : World) : Prop :=
  exists e w', m w = (Raise e, w').

Definition returns {A} (m : M A) (w : World) (a : A) : Prop :=
  exists w', m w = (Ok a, w').

(** ** The program *)

Section Program.

Variable env : Env.

(** *** Primitive calls into the environment *)

Definition pdf_open (path : string) : M Pdf :=
  fun w => (pdfplumber_open env path, log (EvPdfOpen path) w).

Definition invoke_summary (prompt : string) : M ActSummary :=
  fun w => (structured_summary env (length (trace w)) prompt,
            log (EvLLM prompt) w).

Definition invoke_sections (prompt : string) : M LegislativeSections :=
  fun w => (structured_sections env (length (trace w)) prompt,
            log (EvLLM prompt) w).

Definition invoke_rule (prompt : string) : M RuleCheck :=
  fun w => (structured_rule env (length (trace w)) prompt,
            log (EvLLM prompt) w).

(** [self.llm.invoke(prompt).content] *)
Definition invoke_content (prompt : string) : M string :=
  fun w => (llm_content env (length (trace w)) prompt, log (EvLLM prompt) w).

Definition now_isoformat : M string :=
  fun w => (Ok (datetime_now env (length (trace w))), w).

(** [p.mkdir(parents=True, exist_ok=True)] *)
Definition mkdir_parents (p : Path.t) : M unit :=
  fun w =>
    if mkdir_ok env (Path.to_str p)
    then (Ok tt, log (EvMkdir (Path.to_str p)) w)
    else (Raise ("cannot create directory " +:+ Path.to_str p), w).

(** [with open(p, 'w', encoding='utf-8') as f: f.write(text)], and the same
    with [json.dump(..., f)] for the text it produces.  Opening with mode
    ['w'] creates or empties the file before anything is written, so a
    write that raises after that leaves the file with the bytes that had
    reached it. *)
Definition write_text (p : Path.t) (text : string) : M unit :=
  fun w =>
    if open_w_ok env (Path.to_str p)
    then (Ok tt,
          {| files := <[Path.to_str p := utf8_encode text]> (files w);
             trace := trace w ++ [EvWrite (Path.to_str p)] |})
    else
      match write_left env (Path.to_str p) with
      | None => (Raise ("cannot open " +:+ Path.to_str p), w)
      | Some k =>
          (Raise ("cannot write " +:+ Path.to_str p),
           {| files := <[Path.to_str p := take k (utf8_encode text)]> (files w);
              trace := trace w ++ [EvWrite (Path.to_str p)] |})
      end.

(** *** pdf_extractor.py *)

(** The loop of [clean_text]. *)
Fixpoint cleaned_lines (lines : list string) : list string :=
  match lines with
  | [] => []
  | line :: rest =>
      let line := strip line in
      if truthy line then line :: cleaned_lines rest else cleaned_lines rest
  end.

Definition clean_text (text : string) : string :=
  let lines := split_on nl text in
  join NL (cleaned_lines lines).

(** The loop of [extract_text_from_pdf] over the pages. *)
Fixpoint text_content (ps : list (option string)) : list string :=
  match ps with
  | [] => []
  | page_text :: rest =>
      match page_text with
      | Some t => if truthy t then t :: text_content rest else text_content rest
      | None => text_content rest
      end
  end.

Definition extract_text_from_pdf (pdf_path : string) : M string :=
  pdf <- pdf_open pdf_path ;;
  let full_text := join (NL +:+ NL) (text_content (pages pdf)) in
  ret (clean_text full_text).

Fixpoint assoc_get (k default : string) (d : list (string * string)) : string :=
  match d with
  | [] => default
  | (k', v) :: d' => if String.eqb k' k then v else assoc_get k default d'
  end.

Definition get_pdf_metadata (pdf_path : string) : M pydict :=
  pdf <- pdf_open pdf_path ;;
  let metadata := match metadata pdf with Some d => d | None => [] end in
  ret [ ("total_pages", JInt (Z.of_nat (length (pages pdf))));
        ("author", JStr (assoc_get "Author" "Unknown" metadata));
        ("title", JStr (assoc_get "Title" "Unknown" metadata));
        ("creation_date", JStr (assoc_get "CreationDate" "Unknown" metadata)) ].

(** *** json_compiler.py *)

Record JSONCompiler : Type := { report : pydict }.

(** [JSONCompiler.__init__] *)
Definition JSONCompiler_init : JSONCompiler :=
  {| report := [ ("metadata", JDict []);
                 ("task1_text_extraction", JDict []);
                 ("task2_summary", JDict []);
                 ("task3_legislative_sections", JDict []);
                 ("task4_rule_checks", JDict []) ] |}.

(** [add_metadata]; [analysis_date] is [datetime.now().isoformat()]. *)
Definition add_metadata (analysis_date : string) (pdf_metadata : pydict)
    (self : JSONCompiler) : JSONCompiler :=
  {| report := PyDict.set "metadata"
       (JDict [ ("document_name", JStr "Universal Credit Act 2025");
                ("analysis_date", JStr analysis_date);
                ("pdf_info", JDict pdf_metadata) ])
       (report self) |}.

Definition add_task1_result (extracted_text : string) (pdf_path : Path.t)
    (self : JSONCompiler) : JSONCompiler :=
  {| report := PyDict.set "task1_text_extraction"
       (JDict [ ("description", JStr "Full text extracted from PDF");
                ("source_file", JStr (Path.to_str pdf_path));
                ("text_length", JInt (Z.of_nat (String.length extracted_text)));
                ("status", JStr "completed");
                ("note", JStr "Full text stored separately for brevity") ])
       (report self) |}.

Definition add_task2_result (summary : pydict) (self : JSONCompiler)
    : JSONCompiler :=
  {| report := PyDict.set "task2_summary"
       (JDict [ ("description", JStr "Act summarized in 5-10 bullet points");
                ("summary_points", PyDict.get_default "summary" (JList []) summary);
                ("status", JStr "completed") ])
       (report self) |}.

Definition add_task3_result (sections : pydict) (self : JSONCompiler)
    : JSONCompiler :=
  {| report := PyDict.set "task3_legislative_sections"
       (JDict [ ("description", JStr "Key legislative sections extracted");
                ("sections", JDict sections);
                ("status", JStr "completed") ])
       (report self) |}.

(** [r.get("status") == s] *)
Definition status_is (s : string) (r : pydict) : bool :=
  match PyDict.get "status" r with
  | Some (JStr s') => String.eqb s' s
  | _ => false
  end.

(** [sum(1 for r in rule_checks if r.get("status") == s)] *)
Fixpoint count_status (s : string) (rule_checks : list pydict) : nat :=
  match rule_checks with
  | [] => 0
  | r :: rest =>
      if status_is s r then 1 + count_status s rest else count_status s rest
  end.

Definition add_task4_result (rule_checks : list pydict) (self : JSONCompiler)
    : JSONCompiler :=
  {| report := PyDict.set "task4_rule_checks"
       (JDict [ ("description", JStr "Six rule compliance checks applied");
                ("total_rules", JInt (Z.of_nat (length rule_checks)));
                ("passed", JInt (Z.of_nat (count_status "pass" rule_checks)));
                ("failed", JInt (Z.of_nat (count_status "fail" rule_checks)));
                ("checks", JList (map JDict rule_checks));
                ("status", JStr "completed") ])
       (report self) |}.

Definition generate_report (self : JSONCompiler) : pydict := report self.

Definition save_to_file (self : JSONCompiler) (output_path : string)
    : M Path.t :=
  let output_file := Path.of_str output_path in
  mkdir_parents (Path.parent output_file) ;;;
  write_text output_file (Json.dumps (JDict (report self))) ;;;
  ret output_file.

Definition save_extracted_text (text : string) (output_dir : string)
    : M Path.t :=
  let text_file := Path.div (Path.of_str output_dir) "extracted_text.txt" in
  mkdir_parents (Path.parent text_file) ;;;
  write_text text_file text ;;;
  ret text_file.

(** *** gemini_analyzer.py *)

Definition ActSummary_bullets (summary : ActSummary) : list string :=
  [ "Purpose: " +:+ purpose summary;
    "Key Definitions: " +:+ key_definitions summary;
    "Eligibility: " +:+ summary_eligibility summary;
    "Obligations: " +:+ summary_obligations summary;
    "Enforcement: " +:+ enforcement summary ].

(** [sections.model_dump()] *)
Definition LegislativeSections_model_dump (s : LegislativeSections) : pydict :=
  [ ("definitions", JStr (definitions s));
    ("obligations", JStr (obligations s));
    ("responsibilities", JStr (responsibilities s));
    ("eligibility", JStr (eligibility s));
    ("payments", JStr (payments s));
    ("penalties", JStr (penalties s));
    ("record_keeping", JStr (record_keeping s)) ].

(** [rule_result.model_dump()] *)
Definition RuleCheck_model_dump (r : RuleCheck) : pydict :=
  [ ("rule", JStr (rule r));
    ("status", JStr (status r));
    ("evidence", JStr (evidence r));
    ("confidence", JInt (confidence r)) ].

(** The analyzer holds its key; the calls of its client [self.llm] are
    the LLM oracles of the environment. *)
Record GeminiAnalyzer : Type := { api_key : string }.

(** [GeminiAnalyzer.__init__] *)
Definition GeminiAnalyzer_init (key : option string) : M GeminiAnalyzer :=
  let api_key :=
    match key with
    | Some k => if truthy k then Some k else getenv_api_key env
    | None => getenv_api_key env
    end in
  match api_key with
  | Some k =>
      if truthy k
      then ret {| api_key := k |}
      else raise "GEMINI_API_KEY not found in environment"
  | None => raise "GEMINI_API_KEY not found in environment"
  end.

(** The truncation every prompt applies: [text[:20000]]. *)
Definition text_limit : N := 20000.

(** The lines of the prompt of [summarize_act] above the text. *)
Definition summary_instructions : list string :=
    [ "";
      "Analyze the following Universal Credit Act 2025 and provide a summary in exactly 5 bullet points covering:";
      "";
      "1. Purpose - What is the main purpose of this Act?";
      "2. Key Definitions - What are the most important terms defined?";
      "3. Eligibility - Who is eligible under this Act?";
      "4. Obligations - What are the key obligations?";
      "5. Enforcement - What enforcement mechanisms exist?";
      "";
      "Be concise and specific. Extract actual section references where possible.";
      "";
      "TEXT:" ].

Definition summary_prompt (text : string) : string :=
  join NL (summary_instructions ++ [slice_to text_limit text; ""]).

(** The list comprehension of the fallback of [summarize_act]. *)
Definition stripped_lines (content : string) : list string :=
  map strip
    (List.filter (fun line => truthy (strip line)) (split_on nl content)).

Definition summarize_act (self : GeminiAnalyzer) (text : string) : M pydict :=
  let prompt := summary_prompt text in
  try_except
    (summary <- invoke_summary prompt ;;
     ret [ ("summary", JList (map JStr (ActSummary_bullets summary))) ])
    (fun e =>
       content <- invoke_content prompt ;;
       let lines := stripped_lines content in
       ret [ ("summary", JList (map JStr (list_slice_to 10 lines))) ]).

(** The lines of the prompt of [extract_legislative_sections] above the
    text. *)
Definition sections_instructions : list string :=
    [ "";
      "Extract the following sections from the Universal Credit Act 2025. Be specific and include section numbers.";
      "";
      "Return a JSON object with these exact keys:";
      "- " +:+ dq +:+ "definitions" +:+ dq +:+ ": Key terms defined in the Act";
      "- " +:+ dq +:+ "obligations" +:+ dq +:+ ": Obligations stated in the Act";
      "- " +:+ dq +:+ "responsibilities" +:+ dq
           +:+ ": Responsibilities of the administering authority";
      "- " +:+ dq +:+ "eligibility" +:+ dq +:+ ": Eligibility criteria for claimants";
      "- " +:+ dq +:+ "payments" +:+ dq
           +:+ ": Payment calculation or entitlement structure";
      "- " +:+ dq +:+ "penalties" +:+ dq +:+ ": Enforcement or penalty mechanisms";
      "- " +:+ dq +:+ "record_keeping" +:+ dq
           +:+ ": Record-keeping or reporting requirements";
      "";
      "TEXT:" ].

Definition sections_prompt (text : string) : string :=
  join NL (sections_instructions ++ [slice_to text_limit text; ""]).

Definition section_fields : list string :=
  [ "definitions"; "obligations"; "responsibilities"; "eligibility";
    "payments"; "penalties"; "record_keeping" ].

(** The dictionary of the [except] branch, as the source writes it. *)
Definition sections_fallback : pydict :=
  [ ("definitions", JStr "Error extracting definitions");
    ("obligations", JStr "Error extracting obligations");
    ("responsibilities", JStr "Error extracting responsibilities");
    ("eligibility", JStr "Error extracting eligibility");
    ("payments", JStr "Error extracting payments");
    ("penalties", JStr "Error extracting penalties");
    ("record_keeping", JStr "Error extracting record_keeping") ].

Definition extract_legislative_sections (self : GeminiAnalyzer)
    (text : string) : M pydict :=
  let prompt := sections_prompt text in
  try_except
    (sections <- invoke_sections prompt ;;
     ret (LegislativeSections_model_dump sections))
    (fun e => ret sections_fallback).

Definition rules : list string :=
  [ "Act must define key terms";
    "Act must specify eligibility criteria";
    "Act must specify responsibilities of the administering authority";
    "Act must include enforcement or penalties";
    "Act must include payment calculation or entitlement structure";
    "Act must include record-keeping or reporting requirements" ].

(** The lines of the prompt of one rule check above the text. *)
Definition rule_instructions (rule : string) : list string :=
    [ "";
      "Analyze if the Universal Credit Act 2025 meets this requirement:";
      dq +:+ rule +:+ dq;
      "";
      "Determine:";
      "1. Status: " +:+ dq +:+ "pass" +:+ dq +:+ " or " +:+ dq +:+ "fail" +:+ dq;
      "2. Evidence: Specific section reference or evidence from the Act";
      "3. Confidence: Score from 0-100 indicating confidence in this assessment";
      "";
      "Return JSON with keys: rule, status, evidence, confidence";
      "";
      "TEXT:" ].

Definition rule_prompt (rule : string) (text : string) : string :=
  join NL (rule_instructions rule ++ [slice_to text_limit text; ""]).

(** The dictionary appended when the call for [rule] raised [e]. *)
Definition rule_error (rule e : string) : pydict :=
  [ ("rule", JStr rule);
    ("status", JStr "error");
    ("evidence", JStr ("Analysis failed: " +:+ e));
    ("confidence", JInt 0) ].

(** One turn of the loop of [apply_rule_checks]. *)
Definition check_rule (rule : string) (text : string) : M pydict :=
  try_except
    (rule_result <- invoke_rule (rule_prompt rule text) ;;
     ret (RuleCheck_model_dump rule_result))
    (fun e => ret (rule_error rule e)).

(** [for rule in rules: ... results.append(...)] *)
Fixpoint rule_loop (rs : list string) (text : string) (results : list pydict)
    : M (list pydict) :=
  match rs with
  | [] => ret results
  | rule :: rest =>
      r <- check_rule rule text ;;
      rule_loop rest text (results ++ [r])
  end.

Definition apply_rule_checks (self : GeminiAnalyzer) (text : string)
    : M (list pydict) :=
  rule_loop rules text [].

(** *** main.py *)

Definition pdf_path : Path.t := Path.of_str "data/ukpga_20250022_en.pdf".
Definition output_dir : Path.t := Path.of_str "output".
Definition output_json : Path.t := Path.div output_dir "final_report.json".

(** Task 1 of [main], with the metadata and the separate text file. *)
Definition task1 (compiler : JSONCompiler) : M (string * JSONCompiler) :=
  extracted_text <- extract_text_from_pdf (Path.to_str pdf_path) ;;
  pdf_metadata <- get_pdf_metadata (Path.to_str pdf_path) ;;
  analysis_date <- now_isoformat ;;
  let compiler := add_metadata analysis_date pdf_metadata compiler in
  let compiler := add_task1_result extracted_text pdf_path compiler in
  save_extracted_text extracted_text (Path.to_str output_dir) ;;;
  ret (extracted_text, compiler).

Definition task2 (text : string) (compiler : JSONCompiler)
    : M (GeminiAnalyzer * JSONCompiler) :=
  analyzer <- GeminiAnalyzer_init None ;;
  summary <- summarize_act analyzer text ;;
  ret (analyzer, add_task2_result summary compiler).

Definition task3 (analyzer : GeminiAnalyzer) (text : string)
    (compiler : JSONCompiler) : M JSONCompiler :=
  sections <- extract_legislative_sections analyzer text ;;
  ret (add_task3_result sections compiler).

Definition task4 (analyzer : GeminiAnalyzer) (text : string)
    (compiler : JSONCompiler) : M JSONCompiler :=
  rule_checks <- apply_rule_checks analyzer text ;;
  ret (add_task4_result rule_checks compiler).

(** The four tasks in sequence: the [try] block up to the final save. *)
Definition run_tasks (compiler : JSONCompiler) : M JSONCompiler :=
  tc <- task1 compiler ;;
  ac <- task2 (fst tc) (snd tc) ;;
  compiler <- task3 (fst ac) (fst tc) (snd ac) ;;
  task4 (fst ac) (fst tc) compiler.

(** The body of the [try] block of [main]. *)
Definition main_try : M unit :=
  compiler <- run_tasks JSONCompiler_init ;;
  save_to_file compiler (Path.to_str output_json) ;;;
  ret tt.

(** [main]: the exit code of the process and the world it leaves. *)
Definition main (w : World) : Z * World :=
  if negb (path_exists env (Path.to_str pdf_path)) then (1%Z, w)
  else
    match main_try w with
    | (Ok _, w') => (0%Z, w')
    | (Raise e, w') => (1%Z, w')
    end.

End Program.

(** *** streamlit_app.py: the handler of the "Start Analysis" button

    The calls that draw on the page ([st.success], the progress bar, ...)
    are not modelled, like [print]. *)

Definition temp_path : Path.t := Path.of_str "temp_upload.pdf".

(** [st.session_state], as far as the handler writes it. *)
Record SessionState : Type := {
  results : option pydict;
  analysis_complete : bool
}.

(** The [try] block up to the assignment of the results. *)
Definition app_tasks (env : Env) : M (string * JSONCompiler) :=
  let compiler := JSONCompiler_init in
  extracted_text <- extract_text_from_pdf env (Path.to_str temp_path) ;;
  pdf_metadata <- get_pdf_metadata env (Path.to_str temp_path) ;;
  analysis_date <- now_isoformat env ;;
  let compiler := add_metadata analysis_date pdf_metadata compiler in
  let compiler := add_task1_result extracted_text temp_path compiler in
  analyzer <- GeminiAnalyzer_init env None ;;
  summary <- summarize_act env analyzer extracted_text ;;
  let compiler := add_task2_result summary compiler in
  sections <- extract_legislative_sections env analyzer extracted_text ;;
  let compiler := add_task3_result sections compiler in
  rule_checks <- apply_rule_checks env analyzer extracted_text ;;
  let compiler := add_task4_result rule_checks compiler in
  ret (extracted_text, compiler).

(** The rest of the [try] block: the two saves. *)
Definition app_save (env : Env) (extracted_text : string)
    (compiler : JSONCompiler) : M unit :=
  save_to_file env compiler "output/final_report.json" ;;;
  save_extracted_text env extracted_text "output" ;;;
  ret tt.

(** The handler: an exception anywhere in the [try] block is caught and
    shown; the session state keeps what was assigned before it. *)
Definition app_analysis (env : Env) (st : SessionState) (w : World)
    : SessionState * World :=
  match app_tasks env w with
  | (Raise e, w1) => (st, w1)
  | (Ok (extracted_text, compiler), w1) =>
      let st' := {| results := Some (generate_report compiler);
                    analysis_complete := true |} in
      (st', snd (app_save env extracted_text compiler w1))
  end.

(** ** Sample worlds and environments *)

Module Samples.

Definition w0 : World := {| files := ∅; trace := [] |}.

Definition three_pages : Pdf :=
  {| pages := [ Some ("Section 1. Purpose" +:+ NL +:+ "   An Act to amend  " +:+ NL +:+ NL);
                None;
                Some ("  " +:+ NL);
                Some "Section 2. Payments" ];
     metadata := Some [("Title", "Universal Credit Act 2025")] |}.

Definition a_summary : ActSummary :=
  {| purpose := "amend universal credit";
     key_definitions := "claimant (s.1)";
     summary_eligibility := "adults";
     summary_obligations := "report changes";
     enforcement := "penalties (s.9)" |}.

Definition some_sections : LegislativeSections :=
  {| definitions := "s.1"; obligations := "s.2"; responsibilities := "s.3";
     eligibility := "s.4"; payments := "s.5"; penalties := "s.6";
     record_keeping := "s.7" |}.

Definition verdict (st : string) : RuleCheck :=
  {| rule := "as asked"; status := st; evidence := "s.1"; confidence := 90 |}.

Definition mk_env (present : bool)
    (sm : nat -> string -> Result ActSummary)
    (ct : nat -> string -> Result string)
    (sc : nat -> string -> Result LegislativeSections)
    (rl : nat -> string -> Result RuleCheck) : Env :=
  {| path_exists := fun _ => present;
     pdfplumber_open := fun _ => Ok three_pages;
     getenv_api_key := Some "secret";
     datetime_now := fun _ => "2025-11-03T10:00:00";
     structured_summary := sm;
     structured_sections := sc;
     structured_rule := rl;
     llm_content := ct;
     mkdir_ok := fun _ => true;
     open_w_ok := fun _ => true;
     write_left := fun _ => None |}.

(** Every call answers within its schema. *)
Definition env_ok : Env :=
  mk_env true (fun _ _ => Ok a_summary) (fun _ _ => Ok "unused")
    (fun _ _ => Ok some_sections) (fun _ _ => Ok (verdict "pass")).

(** Every structured call fails to decode; the plain call answers. *)
Definition env_degraded : Env :=
  mk_env true (fun _ _ => Raise "schema mismatch")
    (fun _ _ => Ok ("  first point " +:+ NL +:+ NL +:+ "second point"))
    (fun _ _ => Raise "schema mismatch") (fun _ _ => Raise "schema mismatch").

(** The reply to the structured summary request does not fit the schema,
    and the plain request that follows is refused by the service. *)
Definition env_flaky : Env :=
  mk_env true (fun _ _ => Raise "reply does not fit the schema ActSummary")
    (fun _ _ => Raise "429 quota exceeded")
    (fun _ _ => Ok some_sections) (fun _ _ => Ok (verdict "pass")).

(** The model answers the rule checks with a capitalised status. *)
Definition env_capital : Env :=
  mk_env true (fun _ _ => Ok a_summary) (fun _ _ => Ok "unused")
    (fun _ _ => Ok some_sections) (fun _ _ => Ok (verdict "Pass")).


Definition analyzer : GeminiAnalyzer := {| api_key := "secret" |}.

(** The environment [e] with another answer of the PDF library. *)
Definition with_pdf (pdf : Result Pdf) (e : Env) : Env :=
  {| path_exists := path_exists e;
     pdfplumber_open := fun _ => pdf;
     getenv_api_key := getenv_api_key e;
     datetime_now := datetime_now e;
     structured_summary := structured_summary e;
     structured_sections := structured_sections e;
     structured_rule := structured_rule e;
     llm_content := llm_content e;
     mkdir_ok := mkdir_ok e;
     open_w_ok := open_w_ok e;
     write_left := write_left e |}.

(** A scanned document: its pages hold nothing but whitespace. *)
Definition blank_pages : Pdf :=
  {| pages := [Some "   "; Some (NL +:+ "  " +:+ NL)]; metadata := None |}.

(** The value a call returned, or [default] if it raised. *)
Definition value_of {A} (default : A) (r : Result A) : A :=
  match r with Ok a => a | Raise _ => default end.

(** A text of [n] copies of a character followed by [tail]. *)
Definition padded (n : N) (c : ascii) (tail : string) : string :=
  N.iter n (String c) tail.

End Samples.

(** ** Vocabulary of the properties *)

(** A line of clean text: not empty, not blank, no whitespace at either
    end, and in one piece. *)
Definition clean_line (l : string) : Prop :=
  truthy l = true /\ all_space l = false /\ leading_ws l = false
  /\ trailing_ws l = false /\ has_char nl l = false.

(** A page yields text when [page.extract_text] gives a non-empty string. *)
Definition yields_text (page_text : option string) : bool :=
  match page_text with Some t => truthy t | None => false end.

(** The prompts agree on two texts. *)
Definition same_prompts (text1 text2 : string) : Prop :=
  summary_prompt text1 = summary_prompt text2
  /\ sections_prompt text1 = sections_prompt text2
  /\ forall rule, rule_prompt rule text1 = rule_prompt rule text2.

(** What one turn of the loop of [apply_rule_checks] appends for [rule]
    when its call is made at moment [t]. *)
Definition rule_outcome (env : Env) (t : nat) (rule text : string) : pydict :=
  match structured_rule env t (rule_prompt rule text) with
  | Ok r => RuleCheck_model_dump r
  | Raise e => rule_error rule e
  end.

Fixpoint rule_outcomes (env : Env) (t : nat) (rs : list string) (text : string)
    : list pydict :=
  match rs with
  | [] => []
  | rule :: rest => rule_outcome env t rule text :: rule_outcomes env (S t) rest text
  end.

(** A summary point of the fallback: not empty, no whitespace at either end. *)
Definition summary_point_ok (p : string) : Prop :=
  truthy p = true /\ leading_ws p = false /\ trailing_ws p = false.

(** [report[section][field]] *)
Definition section_field (section field : string) (self : JSONCompiler)
    : option json :=
  match PyDict.get section (report self) with
  | Some (JDict d) => PyDict.get field d
  | _ => None
  end.

(** The entry counts as passed or failed. *)
Definition pass_or_fail (r : pydict) : bool :=
  status_is "pass" r || status_is "fail" r.

(** The calls a client can make on the accumulator. *)
Inductive Call : Type :=
| AddMetadata (analysis_date : string) (pdf_metadata : pydict)
| AddTask1 (extracted_text : string) (pdf_path : Path.t)
| AddTask2 (summary : pydict)
| AddTask3 (sections : pydict)
| AddTask4 (rule_checks : list pydict).

Definition call (c : Call) (self : JSONCompiler) : JSONCompiler :=
  match c with
  | AddMetadata d m => add_metadata d m self
  | AddTask1 t p => add_task1_result t p self
  | AddTask2 s => add_task2_result s self
  | AddTask3 s => add_task3_result s self
  | AddTask4 rc => add_task4_result rc self
  end.

(** The section a call writes. *)
Definition section_of (c : Call) : string :=
  match c with
  | AddMetadata _ _ => "metadata"
  | AddTask1 _ _ => "task1_text_extraction"
  | AddTask2 _ => "task2_summary"
  | AddTask3 _ => "task3_legislative_sections"
  | AddTask4 _ => "task4_rule_checks"
  end.

(** The accumulator after a sequence of calls on a fresh one. *)
Definition after (calls : list Call) : JSONCompiler :=
  fold_left (fun self c => call c self) calls JSONCompiler_init.

Definition five_sections : list string :=
  [ "metadata"; "task1_text_extraction"; "task2_summary";
    "task3_legislative_sections"; "task4_rule_checks" ].

(** The four tasks of a report all say "completed". *)
Definition all_completed (self : JSONCompiler) : Prop :=
  Forall (fun section =>
            section_field section "status" self = Some (JStr "completed"))
    [ "task1_text_extraction"; "task2_summary";
      "task3_legislative_sections"; "task4_rule_checks" ].

(** Where [main] saves the report. *)
Definition report_path : string := Path.to_str output_json.

(** Between [w] and [w'] the file [p] was not written. *)
Definition not_written (p : string) (w w' : World) : Prop :=
  files w' !! p = files w !! p
  /\ exists evs, trace w' = trace w ++ evs /\ ~ In (EvWrite p) evs.

(** A computation that never writes the file [p]. *)
Definition leaves {A} (p : string) (m : M A) : Prop :=
  forall w r w', m w = (r, w') -> not_written p w w'.




(** The world after a write of the report [c] that stopped after [k]
    bytes. *)
Definition report_cut (c : JSONCompiler) (k : nat) (w4 : World) : World :=
  {| files := <["output/final_report.json" :=
                  take k (utf8_encode (Json.dumps (JDict (report c))))]>
                (files w4);
     trace := trace w4 ++ [EvMkdir "output"; EvWrite "output/final_report.json"] |}.

(** The characters of a text that are not whitespace, in order. *)
Fixpoint non_spaces (s : string) : string :=
  match s with
  | "" => ""
  | String c s' => if isspace c then non_spaces s' else String c (non_spaces s')
  end.

(** A page without text, or with whitespace only. *)
Definition page_blank (page_text : option string) : bool :=
  match page_text with Some t => all_space t | None => true end.

(** The text [extract_text_from_pdf] makes of an opened document. *)
Definition document_text (pdf : Pdf) : string :=
  clean_text (join (NL +:+ NL) (text_content (pages pdf))).

(** [value] is what [d.get(key, "Unknown")] reads: the first binding of
    [key] in [d], or "Unknown" when [d] has none. *)
Definition reads_from (d : list (string * string)) (key value : string) : Prop :=
  (~ In key (map fst d) /\ value = "Unknown")
  \/ exists front back,
       d = front ++ (key, value) :: back /\ ~ In key (map fst front).

(** The dictionary [get_pdf_metadata] makes of an opened document. *)
Definition pdf_info (pdf : Pdf) : pydict :=
  let d := match metadata pdf with Some d => d | None => [] end in
  [ ("total_pages", JInt (Z.of_nat (length (pages pdf))));
    ("author", JStr (assoc_get "Author" "Unknown" d));
    ("title", JStr (assoc_get "Title" "Unknown" d));
    ("creation_date", JStr (assoc_get "CreationDate" "Unknown" d)) ].

(** The key [GeminiAnalyzer()] finds in the environment, and whether it
    is one ([None] and the empty string are not). *)
Definition env_key (env : Env) : string :=
  match getenv_api_key env with Some k => k | None => "" end.

Definition key_ok (env : Env) : bool := truthy (env_key env).

(** What [summarize_act] returns for a structured reply, and for the
    plain reply of its fallback. *)
Definition summary_of_reply (s : ActSummary) : pydict :=
  [ ("summary", JList (map JStr (ActSummary_bullets s))) ].

Definition summary_of_content (content : string) : pydict :=
  [ ("summary", JList (map JStr (list_slice_to 10 (stripped_lines content)))) ].

(** The outcome of [summarize_act] called at moment [t], and the number
    of requests it sends. *)
Definition summary_answer (env : Env) (t : nat) (text : string) : Result pydict :=
  match structured_summary env t (summary_prompt text) with
  | Ok s => Ok (summary_of_reply s)
  | Raise _ =>
      match llm_content env (S t) (summary_prompt text) with
      | Ok content => Ok (summary_of_content content)
      | Raise e => Raise e
      end
  end.

Definition summary_calls (env : Env) (t : nat) (text : string) : nat :=
  match structured_summary env t (summary_prompt text) with
  | Ok _ => 1
  | Raise _ => 2
  end.

(** What [extract_legislative_sections] returns when called at moment [t]. *)
Definition sections_outcome (env : Env) (t : nat) (text : string) : pydict :=
  match structured_sections env t (sections_prompt text) with
  | Ok s => LegislativeSections_model_dump s
  | Raise _ => sections_fallback
  end.

(** The world [w] with more events. *)
Definition with_events (evs : list Event) (w : World) : World :=
  {| files := files w; trace := trace w ++ evs |}.

(** The paths of [main], as strings. *)
Definition pdf_file : string := "data/ukpga_20250022_en.pdf".
Definition text_file : string := "output/extracted_text.txt".
Definition report_file : string := "output/final_report.json".

(** What a write of [text] to [p] that does not go through gives, the
    events [evs] having taken place since [w]: the file as it was when it
    cannot be opened, and the bytes that reached it otherwise. *)
Definition failed_write {A} (env : Env) (p text : string) (evs : list Event)
    (w : World) : Result A * World :=
  match write_left env p with
  | None => (Raise ("cannot open " +:+ p), with_events evs w)
  | Some k =>
      (Raise ("cannot write " +:+ p),
       {| files := <[p := take k (utf8_encode text)]> (files w);
          trace := trace w ++ evs ++ [EvWrite p] |})
  end.

(** What a run of the four tasks leaves when it starts at moment [n] on the
    document [pdf] and [summarize_act] returns [summary]: the events, in
    order, and the accumulator. *)
Definition task1_events : list Event :=
  [ EvPdfOpen pdf_file; EvPdfOpen pdf_file; EvMkdir "output"; EvWrite text_file ].

Definition summary_events (env : Env) (n : nat) (pdf : Pdf) : list Event :=
  repeat (EvLLM (summary_prompt (document_text pdf)))
    (summary_calls env (n + 4) (document_text pdf)).

Definition run_events (env : Env) (n : nat) (pdf : Pdf) : list Event :=
  task1_events ++ summary_events env n pdf
  ++ [EvLLM (sections_prompt (document_text pdf))]
  ++ map (fun rule => EvLLM (rule_prompt rule (document_text pdf))) rules.

Definition run_report (env : Env) (n : nat) (pdf : Pdf) (summary : pydict)
    : JSONCompiler :=
  after [ AddMetadata (datetime_now env (n + 2)) (pdf_info pdf);
          AddTask1 (document_text pdf) pdf_path;
          AddTask2 summary;
          AddTask3 (sections_outcome env
                      (n + 4 + summary_calls env (n + 4) (document_text pdf))
                      (document_text pdf));
          AddTask4 (rule_outcomes env
                      (n + 5 + summary_calls env (n + 4) (document_text pdf))
                      rules (document_text pdf)) ].

(** The files after Task 1 has saved the text of [pdf]. *)
Definition with_text (pdf : Pdf) (w : World) : gmap string (list Byte.byte) :=
  <[text_file := utf8_encode (document_text pdf)]> (files w).

(** More sample environments. *)
Module Cases.

(** No key in the environment. *)
Definition env_no_key : Env :=
  {| path_exists := fun _ => true;
     pdfplumber_open := fun _ => Ok Samples.three_pages;
     getenv_api_key := None;
     datetime_now := fun _ => "2025-11-03T10:00:00";
     structured_summary := fun _ _ => Ok Samples.a_summary;
     structured_sections := fun _ _ => Ok Samples.some_sections;
     structured_rule := fun _ _ => Ok (Samples.verdict "pass");
     llm_content := fun _ _ => Ok "unused";
     mkdir_ok := fun _ => true;
     open_w_ok := fun _ => true;
     write_left := fun _ => None |}.

(** The document is there and is not a PDF. *)
Definition env_unreadable : Env :=
  Samples.with_pdf (Raise "not a PDF") Samples.env_ok.

(** The output directory takes the text file and refuses the report. *)
Definition env_report_refused : Env :=
  {| path_exists := fun _ => true;
     pdfplumber_open := fun _ => Ok Samples.three_pages;
     getenv_api_key := Some "secret";
     datetime_now := fun _ => "2025-11-03T10:00:00";
     structured_summary := fun _ _ => Ok Samples.a_summary;
     structured_sections := fun _ _ => Ok Samples.some_sections;
     structured_rule := fun _ _ => Ok (Samples.verdict "pass");
     llm_content := fun _ _ => Ok "unused";
     mkdir_ok := fun _ => true;
     open_w_ok := fun p => negb (String.eqb p "output/final_report.json");
     write_left := fun _ => None |}.

(** The report is opened, and the write raises after two bytes. *)
Definition env_report_cut : Env :=
  {| path_exists := fun _ => true;
     pdfplumber_open := fun _ => Ok Samples.three_pages;
     getenv_api_key := Some "secret";
     datetime_now := fun _ => "2025-11-03T10:00:00";
     structured_summary := fun _ _ => Ok Samples.a_summary;
     structured_sections := fun _ _ => Ok Samples.some_sections;
     structured_rule := fun _ _ => Ok (Samples.verdict "pass");
     llm_content := fun _ _ => Ok "unused";
     mkdir_ok := fun _ => true;
     open_w_ok := fun p => negb (String.eqb p "output/final_report.json");
     write_left := fun p =>
       if String.eqb p "output/final_report.json" then Some 2 else None |}.

(** A document whose information dictionary names its author only. *)
Definition signed_pdf : Pdf :=
  {| pages := [Some "Section 1"; None];
     metadata := Some [("Producer", "pdfTeX"); ("Author", "Parliament")] |}.

(** The model answers the first, third and fifth rule check; the calls
    for the others fail. *)
Definition env_half : Env :=
  Samples.mk_env true (fun _ _ => Ok Samples.a_summary) (fun _ _ => Ok "unused")
    (fun _ _ => Ok Samples.some_sections)
    (fun t _ => if Nat.even t then Ok (Samples.verdict "pass")
                else Raise "timeout").

End Cases.

(** The number of calls, among those for the rules [rs] made from moment
    [t] on, that end in an exception. *)
Fixpoint raised_calls (env : Env) (t : nat) (rs : list string) (text : string)
    : nat :=
  match rs with
  | [] => 0
  | rule :: rest =>
      match structured_rule env t (rule_prompt rule text) with
      | Ok _ => raised_calls env (S t) rest text
      | Raise _ => S (raised_calls env (S t) rest text)
      end
  end.

(** The uploaded document of the app, as a string. *)
Definition upload_file : string := "temp_upload.pdf".

(** An event that touches the file system's contents. *)
Definition fs_event (ev : Event) : bool :=
  match ev with EvMkdir _ | EvWrite _ => true | _ => false end.

(** * Properties *)

(** ** Facts about Python strings *)

Section StringFacts.

Lemma app_String c s t : String c s +:+ t = String c (s +:+ t).
Proof. reflexivity. Qed.

Lemma app_empty_l t : "" +:+ t = t.
Proof. reflexivity. Qed.

Lemma sapp_assoc a b c : (a +:+ b) +:+ c = a +:+ (b +:+ c).
Proof.
  induction a as [|x a IH]; [reflexivity|].
  rewrite !app_String, IH. reflexivity.
Qed.

Lemma sapp_empty_r a : a +:+ "" = a.
Proof.
  induction a as [|x a IH]; [reflexivity|]. rewrite app_String, IH. reflexivity.
Qed.

Lemma join_cons2 sep x y rest :
  join sep (x :: y :: rest) = x +:+ sep +:+ join sep (y :: rest).
Proof. reflexivity. Qed.

(** A text placed on the last line but one: everything before it is a
    fixed head. *)
Lemma join_text_last sep ls x :
  ls <> [] ->
  join sep (ls ++ [x; ""]) = join sep (ls ++ [""]) +:+ x +:+ sep.
Proof.
  induction ls as [|a ls IH]; [congruence|]. intros _.
  destruct ls as [|b ls].
  - simpl. rewrite !sapp_empty_r, sapp_assoc. reflexivity.
  - cbn [app] in *. rewrite !join_cons2, IH by discriminate.
    rewrite !sapp_assoc. reflexivity.
Qed.

Lemma truthy_true_iff s : truthy s = true <-> s <> "".
Proof. destruct s; simpl; split; intros; congruence. Qed.

Lemma lstrip_leading s : leading_ws (lstrip s) = false.
Proof.
  induction s as [|c s IH]; simpl; [reflexivity|].
  destruct (isspace c) eqn:E; [exact IH|]. simpl. exact E.
Qed.

Lemma rstrip_leading s : leading_ws s = false -> leading_ws (rstrip s) = false.
Proof.
  destruct s as [|c s]; simpl; [reflexivity|]. intros E.
  destruct (rstrip s); [rewrite E|]; simpl; exact E.
Qed.

Lemma rstrip_trailing s : trailing_ws (rstrip s) = false.
Proof.
  induction s as [|c s IH]; simpl; [reflexivity|].
  destruct (rstrip s) as [|d r] eqn:R.
  - destruct (isspace c) eqn:E; simpl; [reflexivity | exact E].
  - exact IH.
Qed.

Lemma strip_leading s : leading_ws (strip s) = false.
Proof. apply rstrip_leading, lstrip_leading. Qed.

Lemma strip_trailing s : trailing_ws (strip s) = false.
Proof. apply rstrip_trailing. Qed.

Lemma not_all_space s :
  truthy s = true -> leading_ws s = false -> all_space s = false.
Proof. destruct s; simpl; [discriminate|]. intros _ ->. reflexivity. Qed.

Lemma lstrip_has_char c s : has_char c s = false -> has_char c (lstrip s) = false.
Proof.
  induction s as [|d s IH]; simpl; [reflexivity|]. intros H.
  apply orb_false_iff in H as [H1 H2].
  destruct (isspace d); [auto|]. simpl. rewrite H1. exact H2.
Qed.

Lemma rstrip_has_char c s : has_char c s = false -> has_char c (rstrip s) = false.
Proof.
  induction s as [|d s IH]; simpl; [reflexivity|]. intros H.
  apply orb_false_iff in H as [H1 H2]. specialize (IH H2).
  destruct (rstrip s) as [|e r].
  - destruct (isspace d); simpl; [reflexivity|]. rewrite H1. reflexivity.
  - simpl in *. rewrite H1. exact IH.
Qed.

Lemma strip_has_char c s : has_char c s = false -> has_char c (strip s) = false.
Proof. intros. apply rstrip_has_char, lstrip_has_char. assumption. Qed.

Lemma split_on_not_nil sep s : split_on sep s <> [].
Proof.
  destruct s as [|c s]; simpl; [discriminate|].
  destruct (Ascii.eqb c sep); [discriminate|].
  destruct (split_on sep s); discriminate.
Qed.

Lemma split_on_pieces sep s :
  Forall (fun l => has_char sep l = false) (split_on sep s).
Proof.
  induction s as [|c s IH]; simpl.
  - repeat constructor.
  - destruct (Ascii.eqb c sep) eqn:E.
    + constructor; [reflexivity | exact IH].
    + destruct (split_on sep s) as [|l ls].
      * repeat constructor. simpl. rewrite E. reflexivity.
      * inversion IH; subst. constructor; [|assumption].
        simpl. rewrite E. assumption.
Qed.

Lemma split_on_no_sep sep x : has_char sep x = false -> split_on sep x = [x].
Proof.
  induction x as [|c x IH]; simpl; [reflexivity|]. intros H.
  apply orb_false_iff in H as [H1 H2]. rewrite H1, (IH H2). reflexivity.
Qed.

Lemma split_on_app_sep sep x rest :
  has_char sep x = false ->
  split_on sep (x +:+ String sep rest) = x :: split_on sep rest.
Proof.
  induction x as [|c x IH]; intros H.
  - rewrite app_empty_l. simpl. rewrite Ascii.eqb_refl. reflexivity.
  - simpl in H. apply orb_false_iff in H as [H1 H2].
    rewrite app_String. simpl. rewrite H1, (IH H2). reflexivity.
Qed.

Lemma split_on_join sep ls :
  ls <> [] -> Forall (fun l => has_char sep l = false) ls ->
  split_on sep (join (String sep "") ls) = ls.
Proof.
  induction ls as [|x rest IH]; [congruence|]. intros _ HF.
  inversion HF as [|? ? Hx Hrest]; subst.
  destruct rest as [|y rest'].
  - simpl. apply split_on_no_sep. assumption.
  - change (join (String sep "") (x :: y :: rest'))
      with (x +:+ String sep (join (String sep "") (y :: rest'))).
    rewrite split_on_app_sep by assumption.
    rewrite IH; [reflexivity | discriminate | assumption].
Qed.

Lemma app_truthy_l s t : truthy s = true -> truthy (s +:+ t) = true.
Proof. destruct s; [discriminate | reflexivity]. Qed.

Lemma join_truthy sep x rest : truthy x = true -> truthy (join sep (x :: rest)) = true.
Proof.
  intros H. destruct rest; simpl; [assumption|]. apply app_truthy_l. assumption.
Qed.

(** A text joined out of non-empty lines without newlines has exactly
    those lines. *)
Lemma lines_of_join ls :
  Forall (fun l => truthy l = true /\ has_char nl l = false) ls ->
  lines_of (join NL ls) = ls.
Proof.
  intros HF. destruct ls as [|x rest]; [reflexivity|].
  inversion HF as [|? ? [Hx _] _]; subst.
  unfold lines_of.
  pose proof (join_truthy NL x rest Hx) as Ht.
  destruct (join NL (x :: rest)) eqn:J; [discriminate|].
  rewrite <- J. apply split_on_join; [discriminate|].
  eapply Forall_impl; [exact HF|]. simpl. intros ? [_ ?]. assumption.
Qed.

Lemma slice_to_length n s : (N.of_nat (String.length (slice_to n s)) <= n)%N.
Proof.
  revert n. induction s as [|c s IH]; intros n; simpl; [lia|].
  destruct (N.eqb_spec n 0); simpl; [lia|].
  specialize (IH (N.pred n)). lia.
Qed.

Lemma slice_to_prefix n s : exists rest, s = slice_to n s +:+ rest.
Proof.
  revert n. induction s as [|c s IH]; intros n; simpl.
  - exists "". reflexivity.
  - destruct (n =? 0)%N.
    + exists (String c s). reflexivity.
    + destruct (IH (N.pred n)) as [rest Hr]. exists rest.
      rewrite app_String, <- Hr. reflexivity.
Qed.

Lemma slice_to_idem n s : slice_to n (slice_to n s) = slice_to n s.
Proof.
  revert n. induction s as [|c s IH]; intros n; simpl; [reflexivity|].
  destruct (n =? 0)%N eqn:E; simpl; [reflexivity|]. rewrite E, IH. reflexivity.
Qed.

(** [s[:n]] of a text that starts with [n] characters [p]. *)
Lemma slice_to_app p rest :
  slice_to (N.of_nat (String.length p)) (p +:+ rest) = p.
Proof.
  induction p as [|c p IH].
  - simpl. destruct rest; reflexivity.
  - rewrite app_String. cbn [String.length slice_to].
    destruct (N.eqb_spec (N.of_nat (S (String.length p))) 0); [lia|].
    replace (N.pred (N.of_nat (S (String.length p))))
      with (N.of_nat (String.length p)) by lia.
    rewrite IH. reflexivity.
Qed.

Lemma same_slice_of_prefix p u v n :
  N.of_nat (String.length p) = n ->
  slice_to n (p +:+ u) = slice_to n (p +:+ v).
Proof. intros <-. rewrite !slice_to_app. reflexivity. Qed.

End StringFacts.

(** ** The text extractor *)

Section Extractor.

Lemma cleaned_lines_filter lines :
  cleaned_lines lines = List.filter truthy (map strip lines).
Proof.
  induction lines as [|l ls IH]; simpl; [reflexivity|].
  destruct (truthy (strip l)); rewrite IH; reflexivity.
Qed.

Lemma cleaned_lines_clean lines :
  Forall (fun l => has_char nl l = false) lines ->
  Forall clean_line (cleaned_lines lines).
Proof.
  induction 1 as [|l ls Hl _ IH]; simpl; [constructor|].
  destruct (truthy (strip l)) eqn:T; [|exact IH].
  constructor; [|exact IH].
  pose proof (strip_leading l) as HL.
  repeat split; auto using strip_trailing, strip_has_char, not_all_space.
Qed.

Lemma clean_text_lines text :
  lines_of (clean_text text) = cleaned_lines (split_on nl text)
  /\ Forall clean_line (lines_of (clean_text text)).
Proof.
  pose proof (cleaned_lines_clean _ (split_on_pieces nl text)) as HC.
  assert (lines_of (clean_text text) = cleaned_lines (split_on nl text)) as E.
  { unfold clean_text. apply lines_of_join.
    eapply Forall_impl; [exact HC|]. unfold clean_line. simpl. tauto. }
  split; [exact E|]. rewrite E. exact HC.
Qed.

(** The loop over the pages keeps the texts of the pages that yield text. *)
Lemma text_content_pages ps :
  text_content ps = omap id (List.filter yields_text ps).
Proof.
  induction ps as [|[t|] ps IH]; simpl; [reflexivity| |exact IH].
  destruct (truthy t); simpl; [rewrite IH|]; auto.
Qed.

Lemma text_content_truthy ps :
  existsb yields_text ps = true ->
  truthy (join (NL +:+ NL) (text_content ps)) = true.
Proof.
  induction ps as [|[t|] ps IH]; simpl; [discriminate| |exact IH].
  destruct (truthy t) eqn:T; [|exact IH].
  intros _. apply join_truthy. exact T.
Qed.

End Extractor.

(** The characters that [strip], [split] and [join] keep. *)
Section Cleaning.

Lemma non_spaces_app a b : non_spaces (a +:+ b) = non_spaces a +:+ non_spaces b.
Proof.
  induction a as [|c a IH]; [reflexivity|].
  rewrite app_String. simpl. destruct (isspace c); rewrite IH; reflexivity.
Qed.

Lemma non_spaces_lstrip s : non_spaces (lstrip s) = non_spaces s.
Proof.
  induction s as [|c s IH]; simpl; [reflexivity|].
  destruct (isspace c) eqn:E; [exact IH|]. simpl. rewrite E. reflexivity.
Qed.

Lemma non_spaces_rstrip s : non_spaces (rstrip s) = non_spaces s.
Proof.
  induction s as [|c s IH]; simpl; [reflexivity|].
  destruct (rstrip s) as [|d r].
  - simpl in IH. rewrite <- IH. destruct (isspace c) eqn:E; simpl; rewrite ?E; reflexivity.
  - change (non_spaces (String c (String d r)))
      with (if isspace c then non_spaces (String d r)
            else String c (non_spaces (String d r))).
    rewrite IH. reflexivity.
Qed.

Lemma non_spaces_strip s : non_spaces (strip s) = non_spaces s.
Proof. unfold strip. rewrite non_spaces_rstrip. apply non_spaces_lstrip. Qed.

Lemma all_space_non_spaces s : all_space s = true <-> non_spaces s = "".
Proof.
  induction s as [|c s IH]; simpl; [tauto|].
  destruct (isspace c); simpl; [exact IH|]. split; discriminate.
Qed.

Lemma join_empty_cons x rest : join "" (x :: rest) = x +:+ join "" rest.
Proof. destruct rest; simpl; [rewrite sapp_empty_r|]; reflexivity. Qed.

(** Splitting on a character and joining on it gives the text back. *)
Lemma join_split_on sep s : join (String sep "") (split_on sep s) = s.
Proof.
  induction s as [|c s IH]; [reflexivity|]. simpl.
  destruct (Ascii.eqb_spec c sep) as [->|N].
  - pose proof (split_on_not_nil sep s) as NN.
    destruct (split_on sep s) as [|l ls]; [congruence|].
    rewrite join_cons2, IH. reflexivity.
  - pose proof (split_on_not_nil sep s) as NN.
    destruct (split_on sep s) as [|l ls]; [congruence|].
    destruct ls as [|l' ls].
    + simpl in *. rewrite IH. reflexivity.
    + rewrite join_cons2 in *. rewrite app_String, IH. reflexivity.
Qed.

Lemma non_spaces_join sep ls :
  non_spaces sep = "" ->
  non_spaces (join sep ls) = join "" (map non_spaces ls).
Proof.
  intros Hs. induction ls as [|x rest IH]; [reflexivity|].
  destruct rest as [|y rest].
  - simpl. reflexivity.
  - rewrite join_cons2, !non_spaces_app, Hs, IH.
    change (map non_spaces (x :: y :: rest))
      with (non_spaces x :: map non_spaces (y :: rest)).
    rewrite join_empty_cons. reflexivity.
Qed.

Lemma non_spaces_cleaned_lines ls :
  join "" (map non_spaces (cleaned_lines ls)) = join "" (map non_spaces ls).
Proof.
  induction ls as [|l ls IH]; [reflexivity|].
  cbn [cleaned_lines map]. rewrite join_empty_cons, <- IH.
  destruct (truthy (strip l)) eqn:T.
  - cbn [map]. rewrite join_empty_cons, non_spaces_strip. reflexivity.
  - rewrite <- (non_spaces_strip l).
    destruct (strip l); [reflexivity | discriminate].
Qed.

Lemma lstrip_fixed s : leading_ws s = false -> lstrip s = s.
Proof. destruct s as [|c s]; simpl; [reflexivity|]. intros ->. reflexivity. Qed.

Lemma rstrip_fixed s : trailing_ws s = false -> rstrip s = s.
Proof.
  induction s as [|c s IH]; simpl; [reflexivity|].
  destruct s as [|d s].
  - simpl. intros ->. reflexivity.
  - intros H. rewrite (IH H). reflexivity.
Qed.

Lemma strip_fixed s : leading_ws s = false -> trailing_ws s = false -> strip s = s.
Proof. intros L T. unfold strip. rewrite (lstrip_fixed s L). apply rstrip_fixed, T. Qed.

Lemma cleaned_lines_fixed ls : Forall clean_line ls -> cleaned_lines ls = ls.
Proof.
  induction 1 as [|l ls (T & _ & L & R & _) _ IH]; [reflexivity|].
  simpl. rewrite (strip_fixed l L R), T, IH. reflexivity.
Qed.

Lemma lstrip_length s : String.length (lstrip s) <= String.length s.
Proof.
  induction s as [|c s IH]; simpl; [lia|]. destruct (isspace c); simpl; lia.
Qed.

Lemma rstrip_length s : String.length (rstrip s) <= String.length s.
Proof.
  induction s as [|c s IH]; simpl; [lia|].
  destruct (rstrip s); [destruct (isspace c)|]; simpl in *; lia.
Qed.

Lemma strip_length s : String.length (strip s) <= String.length s.
Proof.
  unfold strip. pose proof (rstrip_length (lstrip s)). pose proof (lstrip_length s).
  lia.
Qed.

Lemma sapp_length a b :
  String.length (a +:+ b) = String.length a + String.length b.
Proof.
  induction a as [|c a IH]; [reflexivity|]. rewrite app_String. simpl.
  rewrite IH. reflexivity.
Qed.

Lemma join_nl_length ls :
  String.length (join NL ls)
  = list_sum (map (fun l => S (String.length l)) ls) - 1.
Proof.
  induction ls as [|x rest IH]; [reflexivity|].
  destruct rest as [|y rest].
  - simpl. lia.
  - rewrite join_cons2, !sapp_length, IH.
    simpl. lia.
Qed.

Lemma cleaned_lines_weight ls :
  list_sum (map (fun l => S (String.length l)) (cleaned_lines ls))
  <= list_sum (map (fun l => S (String.length l)) ls).
Proof.
  induction ls as [|l ls IH]; simpl; [lia|].
  pose proof (strip_length l).
  destruct (truthy (strip l)); simpl; lia.
Qed.

Lemma clean_text_non_spaces text : non_spaces (clean_text text) = non_spaces text.
Proof.
  unfold clean_text.
  rewrite (non_spaces_join NL) by reflexivity.
  rewrite non_spaces_cleaned_lines.
  rewrite <- (non_spaces_join NL) by reflexivity.
  change NL with (String nl ""). rewrite join_split_on. reflexivity.
Qed.

Lemma all_space_app a b : all_space (a +:+ b) = all_space a && all_space b.
Proof.
  induction a as [|c a IH]; [reflexivity|]. rewrite app_String. simpl.
  rewrite IH, andb_assoc. reflexivity.
Qed.

Lemma all_space_join sep ls :
  all_space sep = true ->
  all_space (join sep ls) = forallb all_space ls.
Proof.
  intros Hs. induction ls as [|x rest IH]; [reflexivity|].
  destruct rest as [|y rest].
  - simpl. rewrite andb_true_r. reflexivity.
  - rewrite join_cons2, !all_space_app, Hs, IH. reflexivity.
Qed.

End Cleaning.

(** C6: for a document with at least one page that yields text,
    [extract_text_from_pdf] returns the texts of the pages that yield text,
    in page order, joined by a blank line, split into lines, each line
    stripped, the empty ones dropped, and the rest joined by single
    newlines; the lines of the returned text are exactly these, and none is
    blank or has whitespace at its start or end; the text joined from the
    pages is not empty, and the characters of the returned text that are
    not whitespace are those of these pages, page after page. *)
Theorem extract_text_from_pdf_clean (env : Env) (path : string) (w : World)
    (pdf : Pdf) :
  pdfplumber_open env path = Ok pdf ->
  existsb yields_text (pages pdf) = true ->
  exists out,
    returns (extract_text_from_pdf env path) w out
    /\ out = join NL (List.filter truthy (map strip
               (split_on nl (join (NL +:+ NL)
                  (omap id (List.filter yields_text (pages pdf)))))))
    /\ lines_of out = List.filter truthy (map strip
               (split_on nl (join (NL +:+ NL)
                  (omap id (List.filter yields_text (pages pdf))))))
    /\ Forall clean_line (lines_of out)
    /\ truthy (join (NL +:+ NL) (omap id (List.filter yields_text (pages pdf))))
       = true
    /\ non_spaces out
       = join "" (map non_spaces (omap id (List.filter yields_text (pages pdf)))).
Proof.
  intros Hopen Hyield.
  exists (clean_text (join (NL +:+ NL) (text_content (pages pdf)))).
  split.
  - exists (log (EvPdfOpen path) w).
    unfold extract_text_from_pdf, bind, pdf_open, ret. rewrite Hopen. reflexivity.
  - destruct (clean_text_lines (join (NL +:+ NL) (text_content (pages pdf))))
      as [E HC].
    rewrite clean_text_non_spaces, (non_spaces_join (NL +:+ NL)) by reflexivity.
    pose proof (text_content_truthy _ Hyield) as T.
    rewrite <- !text_content_pages, <- cleaned_lines_filter. auto.
Qed.

Lemma extract_text_from_pdf_clean_witness :
  exists out,
    (returns (extract_text_from_pdf Samples.env_ok "data/act.pdf") Samples.w0 out
     /\ out = join NL (List.filter truthy (map strip
                (split_on nl (join (NL +:+ NL)
                   (omap id (List.filter yields_text (pages Samples.three_pages)))))))
     /\ lines_of out = List.filter truthy (map strip
                (split_on nl (join (NL +:+ NL)
                   (omap id (List.filter yields_text (pages Samples.three_pages))))))
     /\ Forall clean_line (lines_of out)
     /\ truthy (join (NL +:+ NL)
                  (omap id (List.filter yields_text (pages Samples.three_pages))))
        = true
     /\ non_spaces out
        = join "" (map non_spaces
                     (omap id (List.filter yields_text (pages Samples.three_pages)))))
    /\ out = "Section 1. Purpose" +:+ NL +:+ "An Act to amend" +:+ NL
             +:+ "Section 2. Payments"
    /\ lines_of out
       = ["Section 1. Purpose"; "An Act to amend"; "Section 2. Payments"]
    /\ non_spaces out = "Section1.PurposeAnActtoamendSection2.Payments".
Proof.
  destruct (extract_text_from_pdf_clean Samples.env_ok "data/act.pdf" Samples.w0
              Samples.three_pages eq_refl eq_refl)
    as (out & R & E & L & C & T & N).
  exists out. split; [exact (conj R (conj E (conj L (conj C (conj T N)))))|].
  rewrite L, N, E. repeat split; vm_compute; reflexivity.
Defined.

(** The normalisation at work, and the two edges of the extractor: pages
    of whitespace alone give the empty text, which has no line; a document
    that cannot be opened makes the call raise. *)
Example clean_text_run :
  clean_text ("  Section 1  " +:+ NL +:+ NL +:+ "   " +:+ NL +:+ " text")
  = "Section 1" +:+ NL +:+ "text".
Proof. vm_compute. reflexivity. Qed.

Example blank_pages_give_empty_text :
  extract_text_from_pdf (Samples.with_pdf (Ok Samples.blank_pages) Samples.env_ok)
    "data/scan.pdf" Samples.w0
  = (Ok "", log (EvPdfOpen "data/scan.pdf") Samples.w0)
  /\ lines_of "" = [].
Proof. split; reflexivity. Qed.

Example unreadable_pdf_raises :
  extract_text_from_pdf (Samples.with_pdf (Raise "not a PDF") Samples.env_ok)
    "data/broken.pdf" Samples.w0
  = (Raise "not a PDF", log (EvPdfOpen "data/broken.pdf") Samples.w0).
Proof. reflexivity. Qed.

(** ** The monad *)

Section MonadFacts.

Context {A B : Type}.

Lemma bind_ok (m : M A) (k : A -> M B) w a w1 :
  m w = (Ok a, w1) -> bind m k w = k a w1.
Proof. unfold bind. intros ->. reflexivity. Qed.


Lemma bind_ok_inv (m : M A) (k : A -> M B) w b w' :
  bind m k w = (Ok b, w') ->
  exists a w1, m w = (Ok a, w1) /\ k a w1 = (Ok b, w').
Proof.
  unfold bind. destruct (m w) as [[a|e] w1]; [eauto | discriminate].
Qed.

Lemma bind_raise_inv (m : M A) (k : A -> M B) w e w' :
  bind m k w = (Raise e, w') ->
  m w = (Raise e, w')
  \/ exists a w1, m w = (Ok a, w1) /\ k a w1 = (Raise e, w').
Proof.
  unfold bind. destruct (m w) as [[a|e0] w1]; [eauto|].
  intros [= -> ->]. auto.
Qed.

End MonadFacts.

(** ** The analysis client: prompts *)

Section Prompts.

Lemma same_prompts_of_slice text1 text2 :
  slice_to text_limit text1 = slice_to text_limit text2 ->
  same_prompts text1 text2.
Proof.
  intros E. unfold same_prompts, summary_prompt, sections_prompt, rule_prompt.
  rewrite E. auto.
Qed.

Variable env : Env.

Lemma check_rule_same rule text1 text2 w :
  same_prompts text1 text2 ->
  check_rule env rule text1 w = check_rule env rule text2 w.
Proof.
  intros (_ & _ & E). unfold check_rule. rewrite (E rule). reflexivity.
Qed.

Lemma rule_loop_same rs text1 text2 :
  same_prompts text1 text2 ->
  forall results w,
    rule_loop env rs text1 results w = rule_loop env rs text2 results w.
Proof.
  intros E. induction rs as [|rule rest IH]; intros results w; simpl.
  - reflexivity.
  - unfold bind. rewrite (check_rule_same rule text1 text2 w E).
    destruct (check_rule env rule text2 w) as [[r|e] w1]; [apply IH | reflexivity].
Qed.

End Prompts.

(** C8: the three operations build their prompts from [text[:20000]]
    alone.  Each prompt is a fixed head, then the first 20,000 characters of
    the text, then a newline; so two texts with the same first 20,000
    characters give the same prompts, the same calls and the same results,
    whatever follows in either text. *)
Theorem prompts_see_only_the_prefix (env : Env) (self : GeminiAnalyzer)
    (text1 text2 : string) (w : World) :
  slice_to 20000 text1 = slice_to 20000 text2 ->
  (exists head, forall text,
      summary_prompt text = head +:+ slice_to 20000 text +:+ NL)
  /\ (exists head, forall text,
      sections_prompt text = head +:+ slice_to 20000 text +:+ NL)
  /\ (forall rule, exists head, forall text,
      rule_prompt rule text = head +:+ slice_to 20000 text +:+ NL)
  /\ same_prompts text1 text2
  /\ summarize_act env self text1 w = summarize_act env self text2 w
  /\ extract_legislative_sections env self text1 w
     = extract_legislative_sections env self text2 w
  /\ apply_rule_checks env self text1 w = apply_rule_checks env self text2 w.
Proof.
  intros E. pose proof (same_prompts_of_slice _ _ E) as HP.
  split.
  { exists (join NL (summary_instructions ++ [""])). intros text.
    apply join_text_last. discriminate. }
  split.
  { exists (join NL (sections_instructions ++ [""])). intros text.
    apply join_text_last. discriminate. }
  split.
  { intros rule. exists (join NL (rule_instructions rule ++ [""])). intros text.
    apply join_text_last. discriminate. }
  split; [exact HP|].
  destruct HP as (E1 & E2 & E3).
  split; [unfold summarize_act; rewrite E1; reflexivity|].
  split; [unfold extract_legislative_sections; rewrite E2; reflexivity|].
  apply rule_loop_same. repeat split; assumption.
Qed.

Lemma prompts_see_only_the_prefix_witness :
  same_prompts (Samples.padded 20000 "a" "" +:+ " and one ending")
               (Samples.padded 20000 "a" "" +:+ " and quite another ending")
  /\ apply_rule_checks Samples.env_ok Samples.analyzer
       (Samples.padded 20000 "a" "" +:+ " and one ending") Samples.w0
     = apply_rule_checks Samples.env_ok Samples.analyzer
       (Samples.padded 20000 "a" "" +:+ " and quite another ending") Samples.w0.
Proof.
  destruct (prompts_see_only_the_prefix Samples.env_ok Samples.analyzer
    (Samples.padded 20000 "a" "" +:+ " and one ending")
    (Samples.padded 20000 "a" "" +:+ " and quite another ending") Samples.w0)
    as (_ & _ & _ & HP & _ & _ & HR).
  - apply same_slice_of_prefix. vm_compute. reflexivity.
  - split; [exact HP | exact HR].
Defined.

(** ** The analysis client: fallbacks *)

Section Fallbacks.

Variable env : Env.

Lemma stripped_lines_ok content : Forall summary_point_ok (stripped_lines content).
Proof.
  unfold stripped_lines. apply List.Forall_forall. intros p Hp.
  apply in_map_iff in Hp as (l & <- & Hl).
  apply filter_In in Hl as [_ Ht].
  repeat split; auto using strip_leading, strip_trailing.
Qed.

Lemma list_slice_to_length {A} n (l : list A) : length (list_slice_to n l) <= n.
Proof. unfold list_slice_to. rewrite length_take. lia. Qed.

Lemma list_slice_to_Forall {A} (P : A -> Prop) n (l : list A) :
  Forall P l -> Forall P (list_slice_to n l).
Proof. unfold list_slice_to. apply Forall_take. Qed.

Lemma check_rule_run rule text w :
  check_rule env rule text w
  = (Ok (rule_outcome env (length (trace w)) rule text),
     log (EvLLM (rule_prompt rule text)) w).
Proof.
  unfold check_rule, try_except, bind, invoke_rule, rule_outcome, ret.
  destruct (structured_rule env (length (trace w)) (rule_prompt rule text));
    reflexivity.
Qed.

Lemma rule_loop_run text rs :
  forall results w,
    rule_loop env rs text results w
    = (Ok (results ++ rule_outcomes env (length (trace w)) rs text),
       {| files := files w;
          trace := trace w ++ map (fun rule => EvLLM (rule_prompt rule text)) rs |}).
Proof.
  induction rs as [|rule rest IH]; intros results w; simpl.
  - unfold ret. rewrite !app_nil_r. destruct w; reflexivity.
  - rewrite (bind_ok _ _ _ _ _ (check_rule_run rule text w)), IH.
    unfold log. simpl. rewrite length_app, Nat.add_1_r, <- !app_assoc.
    reflexivity.
Qed.

Lemma rule_outcomes_length t rs text :
  length (rule_outcomes env t rs text) = length rs.
Proof. revert t. induction rs; intros t; simpl; auto. Qed.

Lemma rule_outcomes_lookup rs text :
  forall t i rule,
    rs !! i = Some rule ->
    rule_outcomes env t rs text !! i = Some (rule_outcome env (t + i) rule text).
Proof.
  induction rs as [|r rest IH]; intros t i rule H; [discriminate|].
  destruct i as [|i]; simpl in *.
  - injection H as ->. rewrite Nat.add_0_r. reflexivity.
  - rewrite (IH (S t) i rule H). f_equal. f_equal. lia.
Qed.

End Fallbacks.

(** C5: when the structured call of [extract_legislative_sections] fails,
    the function returns a dictionary with exactly the seven fields, each
    holding its placeholder "Error extracting <field>" and nothing of the
    model's reply. *)
Theorem sections_fallback_all_fields (env : Env) (self : GeminiAnalyzer)
    (text : string) (w : World) (e : string) :
  structured_sections env (length (trace w)) (sections_prompt text) = Raise e ->
  exists sections,
    returns (extract_legislative_sections env self text) w sections
    /\ PyDict.keys sections = section_fields
    /\ forall field, In field section_fields ->
         PyDict.get field sections = Some (JStr ("Error extracting " +:+ field)).
Proof.
  intros H. exists sections_fallback. split; [|split].
  - exists (log (EvLLM (sections_prompt text)) w).
    unfold extract_legislative_sections, try_except, bind, invoke_sections.
    rewrite H. reflexivity.
  - reflexivity.
  - intros field Hin. simpl in Hin.
    repeat (destruct Hin as [<-|Hin]; [reflexivity|]). destruct Hin.
Qed.

Lemma sections_fallback_all_fields_witness :
  exists sections,
    returns (extract_legislative_sections Samples.env_degraded Samples.analyzer
               "An Act to amend") Samples.w0 sections
    /\ PyDict.keys sections = section_fields
    /\ forall field, In field section_fields ->
         PyDict.get field sections = Some (JStr ("Error extracting " +:+ field)).
Proof.
  apply (sections_fallback_all_fields Samples.env_degraded Samples.analyzer
           "An Act to amend" Samples.w0 "schema mismatch").
  reflexivity.
Defined.

(** C4, as the code has it: when the structured call of [summarize_act]
    fails, the same prompt is sent once more as a plain request.  If that
    request answers, the function returns the non-empty stripped lines of
    the answer, at most the first 10 of them, so [summary] has at most 10
    points and none is empty; splitting and truncating never fail.  If the
    plain request itself fails, its exception leaves [summarize_act]. *)
Theorem summarize_fallback (env : Env) (self : GeminiAnalyzer) (text : string)
    (w : World) (e : string) :
  structured_summary env (length (trace w)) (summary_prompt text) = Raise e ->
  match llm_content env (S (length (trace w))) (summary_prompt text) with
  | Ok content =>
      exists points,
        returns (summarize_act env self text) w
          [("summary", JList (map JStr points))]
        /\ points = take 10 (map strip
             (List.filter (fun line => truthy (strip line)) (split_on nl content)))
        /\ length points <= 10
        /\ Forall summary_point_ok points
  | Raise e' => exists w', summarize_act env self text w = (Raise e', w')
  end.
Proof.
  intros H.
  assert (length (trace (log (EvLLM (summary_prompt text)) w))
          = S (length (trace w))) as L
    by (unfold log; simpl; rewrite length_app; simpl; lia).
  destruct (llm_content env (S (length (trace w))) (summary_prompt text))
    as [content|e'] eqn:C.
  - exists (list_slice_to 10 (stripped_lines content)).
    split; [|split; [reflexivity|split]].
    + eexists. unfold summarize_act, try_except, bind, invoke_summary.
      rewrite H. unfold invoke_content. rewrite L, C. reflexivity.
    + apply list_slice_to_length.
    + apply list_slice_to_Forall, stripped_lines_ok.
  - eexists. unfold summarize_act, try_except, bind, invoke_summary.
    rewrite H. unfold invoke_content. rewrite L, C. reflexivity.
Qed.

Lemma summarize_fallback_witness :
  exists points,
    returns (summarize_act Samples.env_degraded Samples.analyzer "An Act to amend")
      Samples.w0 [("summary", JList (map JStr points))]
    /\ points = ["first point"; "second point"]
    /\ length points <= 10
    /\ Forall summary_point_ok points.
Proof.
  destruct (summarize_fallback Samples.env_degraded Samples.analyzer
              "An Act to amend" Samples.w0 "schema mismatch" eq_refl)
    as (points & Hret & Hpts & Hlen & Hok).
  exists points. repeat split; assumption.
Defined.

(** C4 as stated ("this fallback never raises") fails: the structured
    reply does not fit the schema, the plain request of the fallback is
    refused, and [summarize_act] ends in that exception and returns
    nothing. *)
Lemma summarize_fallback_can_raise :
  structured_summary Samples.env_flaky (length (trace Samples.w0))
    (summary_prompt "An Act to amend")
  = Raise "reply does not fit the schema ActSummary"
  /\ raises (summarize_act Samples.env_flaky Samples.analyzer "An Act to amend")
       Samples.w0
  /\ ~ exists summary,
         returns (summarize_act Samples.env_flaky Samples.analyzer "An Act to amend")
           Samples.w0 summary.
Proof.
  split; [reflexivity|]. split.
  - do 2 eexists. reflexivity.
  - intros (summary & w' & H). vm_compute in H. discriminate.
Qed.

(** C3: [apply_rule_checks] never raises and returns six results, the i-th
    being the outcome of the i-th rule's own call: the dump of the model's
    answer when the call answers, and when it fails the entry with the
    rule's text, status "error", confidence 0 and the evidence
    "Analysis failed: <message>".  The calls are the six rule prompts in
    order, no file is touched, and changing the answer to one rule's call
    leaves the results of the other rules as they were. *)
Theorem apply_rule_checks_isolated (env : Env) (self : GeminiAnalyzer)
    (text : string) (w : World) :
  exists results w',
    apply_rule_checks env self text w = (Ok results, w')
    /\ length results = 6 /\ length rules = 6
    /\ files w' = files w
    /\ trace w' = trace w ++ map (fun rule => EvLLM (rule_prompt rule text)) rules
    /\ (forall i rule, rules !! i = Some rule ->
          (forall r,
              structured_rule env (length (trace w) + i) (rule_prompt rule text)
              = Ok r ->
              results !! i = Some (RuleCheck_model_dump r))
          /\ (forall e,
              structured_rule env (length (trace w) + i) (rule_prompt rule text)
              = Raise e ->
              results !! i
              = Some [ ("rule", JStr rule); ("status", JStr "error");
                       ("evidence", JStr ("Analysis failed: " +:+ e));
                       ("confidence", JInt 0) ]))
    /\ (forall env' i,
          (forall j prompt, j <> i ->
              structured_rule env' (length (trace w) + j) prompt
              = structured_rule env (length (trace w) + j) prompt) ->
          exists results' w'',
            apply_rule_checks env' self text w = (Ok results', w'')
            /\ forall j, j <> i -> results' !! j = results !! j).
Proof.
  exists (rule_outcomes env (length (trace w)) rules text). eexists.
  split; [apply (rule_loop_run env text rules [] w)|].
  split; [apply rule_outcomes_length|]. split; [reflexivity|].
  split; [reflexivity|]. split; [reflexivity|]. split.
  - intros i rule Hi.
    pose proof (rule_outcomes_lookup env rules text (length (trace w)) i rule Hi)
      as L.
    split; intros x Hx; (etransitivity; [exact L|]);
      unfold rule_outcome; rewrite Hx; reflexivity.
  - intros env' i Hsame.
    exists (rule_outcomes env' (length (trace w)) rules text). eexists.
    split; [apply (rule_loop_run env' text rules [] w)|]. intros j Hj.
    destruct (rules !! j) as [rule|] eqn:R.
    + rewrite !(rule_outcomes_lookup _ rules text _ j rule R).
      unfold rule_outcome. rewrite (Hsame j _ Hj). reflexivity.
    + apply lookup_ge_None in R.
      rewrite !(proj2 (lookup_ge_None _ _));
        [reflexivity | rewrite rule_outcomes_length; exact R ..].
Qed.

(** ** The report accumulator *)

Section Accumulator.

Lemma get_set_eq k v d : PyDict.get k (PyDict.set k v d) = Some v.
Proof.
  induction d as [|[k' v'] d IH]; simpl.
  - rewrite String.eqb_refl. reflexivity.
  - destruct (String.eqb k' k) eqn:E; simpl.
    + rewrite String.eqb_refl. reflexivity.
    + rewrite E. exact IH.
Qed.

Lemma get_set_ne k k' v d :
  k <> k' -> PyDict.get k' (PyDict.set k v d) = PyDict.get k' d.
Proof.
  intros N. induction d as [|[k0 v0] d IH]; simpl.
  - apply String.eqb_neq in N. rewrite N. reflexivity.
  - destruct (String.eqb_spec k0 k) as [->|Nk]; simpl.
    + apply String.eqb_neq in N. rewrite N. reflexivity.
    + rewrite IH. reflexivity.
Qed.

Lemma keys_set_present k v d :
  In k (PyDict.keys d) -> PyDict.keys (PyDict.set k v d) = PyDict.keys d.
Proof.
  induction d as [|[k' v'] d IH]; simpl; [tauto|]. intros H.
  destruct (String.eqb_spec k' k) as [->|N]; simpl; [reflexivity|].
  f_equal. apply IH. destruct H; [contradiction | assumption].
Qed.

Lemma call_report c self :
  exists v, report (call c self) = PyDict.set (section_of c) (JDict v) (report self).
Proof. destruct c; simpl; eexists; reflexivity. Qed.

Lemma section_of_five c : In (section_of c) five_sections.
Proof. destruct c; simpl; tauto. Qed.

Lemma call_keys c self :
  PyDict.keys (report self) = five_sections ->
  PyDict.keys (report (call c self)) = five_sections.
Proof.
  intros H. destruct (call_report c self) as [v ->].
  rewrite keys_set_present; [exact H|]. rewrite H. apply section_of_five.
Qed.

Lemma after_snoc calls c : after (calls ++ [c]) = call c (after calls).
Proof. unfold after. rewrite fold_left_app. reflexivity. Qed.

Lemma section_field_other c self section field :
  section <> section_of c ->
  section_field section field (call c self) = section_field section field self.
Proof.
  intros N. unfold section_field. destruct (call_report c self) as [v ->].
  rewrite get_set_ne by congruence. reflexivity.
Qed.

Lemma status_is_functional a b r :
  status_is a r = true -> status_is b r = true -> a = b.
Proof.
  unfold status_is. destruct (PyDict.get "status" r) as [[| |s| |]|];
    try discriminate.
  intros Ha Hb. apply String.eqb_eq in Ha, Hb. congruence.
Qed.

Lemma count_status_le s l : count_status s l <= length l.
Proof.
  induction l as [|r l IH]; simpl; [lia|]. destruct (status_is s r); simpl; lia.
Qed.

Lemma count_pass_fail_le l :
  count_status "pass" l + count_status "fail" l <= length l.
Proof.
  induction l as [|r l IH]; simpl; [lia|].
  destruct (status_is "pass" r) eqn:P, (status_is "fail" r) eqn:F; simpl; try lia.
  pose proof (status_is_functional _ _ _ P F). discriminate.
Qed.

Lemma count_pass_fail_eq l :
  count_status "pass" l + count_status "fail" l = length l
  <-> Forall (fun r => pass_or_fail r = true) l.
Proof.
  induction l as [|r l IH]; simpl.
  - split; [constructor | reflexivity].
  - pose proof (count_pass_fail_le l) as LE.
    rewrite List.Forall_cons_iff, <- IH. unfold pass_or_fail.
    destruct (status_is "pass" r) eqn:P, (status_is "fail" r) eqn:F; simpl.
    + pose proof (status_is_functional _ _ _ P F). discriminate.
    + intuition lia.
    + intuition lia.
    + split; [lia | intros [? _]; discriminate].
Qed.

Lemma count_error_lt l :
  count_status "error" l <> 0 ->
  count_status "pass" l + count_status "fail" l < length l.
Proof.
  induction l as [|r l IH]; simpl; [congruence|].
  pose proof (count_pass_fail_le l) as LE.
  destruct (status_is "error" r) eqn:E.
  - intros _.
    destruct (status_is "pass" r) eqn:P;
      [pose proof (status_is_functional _ _ _ P E); discriminate|].
    destruct (status_is "fail" r) eqn:F;
      [pose proof (status_is_functional _ _ _ F E); discriminate|].
    lia.
  - intros H. specialize (IH H).
    destruct (status_is "pass" r) eqn:P, (status_is "fail" r) eqn:F; simpl; try lia.
    pose proof (status_is_functional _ _ _ P F). discriminate.
Qed.

End Accumulator.

(** C2, as the code has it: for the list [apply_rule_checks] returns, the
    section written by [add_task4_result] has [total_rules] = 6, and
    [passed] and [failed] are the numbers of entries whose status is exactly
    "pass" and exactly "fail", counted from the list.  Their sum is at most
    6; it is 6 exactly when every entry has status "pass" or "fail"; an
    entry with status "error" makes it smaller than 6. *)
Theorem task4_counts (env : Env) (self : GeminiAnalyzer) (text : string)
    (w : World) (compiler : JSONCompiler) :
  exists results w',
    apply_rule_checks env self text w = (Ok results, w')
    /\ section_field "task4_rule_checks" "total_rules"
         (add_task4_result results compiler) = Some (JInt 6)
    /\ section_field "task4_rule_checks" "passed"
         (add_task4_result results compiler)
       = Some (JInt (Z.of_nat (count_status "pass" results)))
    /\ section_field "task4_rule_checks" "failed"
         (add_task4_result results compiler)
       = Some (JInt (Z.of_nat (count_status "fail" results)))
    /\ section_field "task4_rule_checks" "checks"
         (add_task4_result results compiler) = Some (JList (map JDict results))
    /\ count_status "pass" results + count_status "fail" results <= 6
    /\ (count_status "pass" results + count_status "fail" results = 6
        <-> Forall (fun r => pass_or_fail r = true) results)
    /\ (count_status "error" results <> 0 ->
        count_status "pass" results + count_status "fail" results < 6).
Proof.
  exists (rule_outcomes env (length (trace w)) rules text). eexists.
  split; [apply (rule_loop_run env text rules [] w)|].
  assert (length (rule_outcomes env (length (trace w)) rules text) = 6) as L
    by apply rule_outcomes_length.
  unfold section_field, add_task4_result, report. rewrite !get_set_eq, L.
  repeat (split; [reflexivity|]).
  rewrite <- L at 1 2 3.
  split; [apply count_pass_fail_le|].
  split; [apply count_pass_fail_eq | apply count_error_lt].
Qed.

(** C2 as stated fails: when the model answers with the status "Pass", no
    entry has status "error", and still [passed] + [failed] = 0, not 6. *)
Lemma task4_counts_claim_fails :
  exists results w',
    apply_rule_checks Samples.env_capital Samples.analyzer "An Act to amend"
      Samples.w0 = (Ok results, w')
    /\ count_status "error" results = 0
    /\ section_field "task4_rule_checks" "total_rules"
         (add_task4_result results JSONCompiler_init) = Some (JInt 6)
    /\ section_field "task4_rule_checks" "passed"
         (add_task4_result results JSONCompiler_init) = Some (JInt 0)
    /\ section_field "task4_rule_checks" "failed"
         (add_task4_result results JSONCompiler_init) = Some (JInt 0)
    /\ ~ (count_status "pass" results + count_status "fail" results
          = length results
          <-> count_status "error" results = 0).
Proof.
  do 2 eexists.
  split; [apply (rule_loop_run Samples.env_capital "An Act to amend" rules [])|].
  repeat (split; [vm_compute; reflexivity|]).
  vm_compute. intros [_ H]. specialize (H eq_refl). discriminate.
Qed.

(** C7: a fresh accumulator has exactly the five sections metadata,
    task1_text_extraction, task2_summary, task3_legislative_sections and
    task4_rule_checks, in this order, and so it has after any sequence of
    [add_metadata] and [add_task1..4] calls with any contents; a call
    writes its own section and leaves every other section as it was. *)
Theorem report_has_five_sections (calls : list Call) :
  PyDict.keys (report JSONCompiler_init) = five_sections
  /\ PyDict.keys (report (after calls)) = five_sections
  /\ (forall c self,
        PyDict.keys (report self) = five_sections ->
        PyDict.keys (report (call c self)) = five_sections)
  /\ (forall c self, exists v,
        PyDict.get (section_of c) (report (call c self)) = Some (JDict v))
  /\ (forall c self section,
        section <> section_of c ->
        PyDict.get section (report (call c self))
        = PyDict.get section (report self)).
Proof.
  split; [reflexivity|]. split.
  - induction calls as [|c calls IH] using rev_ind; [reflexivity|].
    rewrite after_snoc. apply call_keys, IH.
  - split; [exact call_keys|]. split.
    + intros c self. destruct (call_report c self) as [v ->].
      exists v. apply get_set_eq.
    + intros c self section N. destruct (call_report c self) as [v ->].
      apply get_set_ne. congruence.
Qed.

(** ** Saving the report *)

Section Saving.

Lemma save_to_file_ok_inv env self path w p w' :
  save_to_file env self path w = (Ok p, w') ->
  p = Path.of_str path
  /\ files w' = <[Path.to_str p := utf8_encode (Json.dumps (JDict (report self)))]>
                  (files w).
Proof.
  unfold save_to_file, bind, mkdir_parents, write_text, ret, log.
  destruct (mkdir_ok env _); [|discriminate]. simpl.
  destruct (open_w_ok env _); [|destruct (write_left env _); discriminate].
  intros [= <- <-]. split; reflexivity.
Qed.

End Saving.

(** C9: what [save_to_file] writes is the UTF-8 encoding of
    [json.dumps(report, indent=2, ensure_ascii=False)], a function of the
    report alone.  Two saves of the same accumulator, at any two moments and
    in any two states of the world, write the same bytes to the same path,
    the [analysis_date] included; and a second save straight after the
    first leaves the files as the first left them. *)
Theorem save_to_file_deterministic (env1 env2 : Env) (self : JSONCompiler)
    (path : string) (w1 w2 w1' w2' : World) (p1 p2 : Path.t) :
  save_to_file env1 self path w1 = (Ok p1, w1') ->
  save_to_file env2 self path w2 = (Ok p2, w2') ->
  p1 = p2
  /\ files w1' !! Path.to_str p1
     = Some (utf8_encode (Json.dumps (JDict (report self))))
  /\ files w2' !! Path.to_str p2 = files w1' !! Path.to_str p1
  /\ (w2 = w1' -> files w2' = files w1').
Proof.
  intros H1 H2.
  apply save_to_file_ok_inv in H1 as [-> F1], H2 as [-> F2].
  rewrite F1, F2, !lookup_insert_eq. repeat split.
  intros ->. rewrite F1. apply insert_insert_eq.
Qed.

Lemma save_to_file_deterministic_witness :
  files (snd (save_to_file Samples.env_degraded (after [AddTask3 sections_fallback])
                "output/final_report.json"
                (snd (save_to_file Samples.env_ok (after [AddTask3 sections_fallback])
                        "output/final_report.json" Samples.w0))))
  = files (snd (save_to_file Samples.env_ok (after [AddTask3 sections_fallback])
                  "output/final_report.json" Samples.w0))
  /\ files (snd (save_to_file Samples.env_ok (after [AddTask3 sections_fallback])
                   "output/final_report.json" Samples.w0))
       !! "output/final_report.json"
     = Some (utf8_encode
               (Json.dumps (JDict (report (after [AddTask3 sections_fallback]))))).
Proof.
  destruct (save_to_file_deterministic Samples.env_ok Samples.env_degraded
              (after [AddTask3 sections_fallback]) "output/final_report.json"
              Samples.w0
              (snd (save_to_file Samples.env_ok (after [AddTask3 sections_fallback])
                      "output/final_report.json" Samples.w0))
              (snd (save_to_file Samples.env_ok (after [AddTask3 sections_fallback])
                      "output/final_report.json" Samples.w0))
              (snd (save_to_file Samples.env_degraded
                      (after [AddTask3 sections_fallback])
                      "output/final_report.json"
                      (snd (save_to_file Samples.env_ok
                              (after [AddTask3 sections_fallback])
                              "output/final_report.json" Samples.w0))))
              (Path.of_str "output/final_report.json")
              (Path.of_str "output/final_report.json"))
    as (_ & H1 & _ & H3).
  - vm_compute. reflexivity.
  - vm_compute. reflexivity.
  - split; [exact (H3 eq_refl) | exact H1].
Defined.

(** The layout [json.dump] gives a fresh report: two spaces per level, one
    key per line, empty dictionaries closed on the spot. *)
Example dumps_fresh_report :
  Json.dumps (JDict (report JSONCompiler_init))
  = join NL
      [ "{";
        "  " +:+ dq +:+ "metadata" +:+ dq +:+ ": {},";
        "  " +:+ dq +:+ "task1_text_extraction" +:+ dq +:+ ": {},";
        "  " +:+ dq +:+ "task2_summary" +:+ dq +:+ ": {},";
        "  " +:+ dq +:+ "task3_legislative_sections" +:+ dq +:+ ": {},";
        "  " +:+ dq +:+ "task4_rule_checks" +:+ dq +:+ ": {}";
        "}" ].
Proof. vm_compute. reflexivity. Qed.

Example dumps_nested :
  Json.dumps (JDict [("checks", JList [JDict [("confidence", JInt 0)]]);
                     ("note", JStr ("a" +:+ NL +:+ "b"))])
  = join NL
      [ "{";
        "  " +:+ dq +:+ "checks" +:+ dq +:+ ": [";
        "    {";
        "      " +:+ dq +:+ "confidence" +:+ dq +:+ ": 0";
        "    }";
        "  ],";
        "  " +:+ dq +:+ "note" +:+ dq +:+ ": " +:+ dq +:+ "a\nb" +:+ dq;
        "}" ].
Proof. vm_compute. reflexivity. Qed.

(** ** The orchestrator *)

Section Orchestrator.

Variable env : Env.
Variable p : string.

Lemma not_written_refl w : not_written p w w.
Proof.
  split; [reflexivity|]. exists []. rewrite app_nil_r. split; [reflexivity|].
  intros [].
Qed.

Lemma not_written_trans w1 w2 w3 :
  not_written p w1 w2 -> not_written p w2 w3 -> not_written p w1 w3.
Proof.
  intros (F1 & e1 & T1 & N1) (F2 & e2 & T2 & N2). split; [congruence|].
  exists (e1 ++ e2). rewrite T2, T1, app_assoc. split; [reflexivity|].
  rewrite in_app_iff. tauto.
Qed.

Lemma not_written_log ev w : ev <> EvWrite p -> not_written p w (log ev w).
Proof.
  intros N. split; [reflexivity|]. exists [ev]. split; [reflexivity|].
  intros [H|[]]. congruence.
Qed.

Lemma leaves_ret {A} (a : A) : leaves p (ret a).
Proof. intros w r w' [= <- <-]. apply not_written_refl. Qed.

Lemma leaves_raise {A} e : leaves p (@raise A e).
Proof. intros w r w' [= <- <-]. apply not_written_refl. Qed.

Lemma leaves_bind {A B} (m : M A) (k : A -> M B) :
  leaves p m -> (forall a, leaves p (k a)) -> leaves p (bind m k).
Proof.
  intros Hm Hk w r w'. unfold bind. destruct (m w) as [[a|e] w1] eqn:E.
  - intros H. eapply not_written_trans; [eapply Hm, E | eapply Hk, H].
  - intros [= <- <-]. eapply Hm, E.
Qed.

Lemma leaves_try {A} (m : M A) (h : string -> M A) :
  leaves p m -> (forall e, leaves p (h e)) -> leaves p (try_except m h).
Proof.
  intros Hm Hh w r w'. unfold try_except. destruct (m w) as [[a|e] w1] eqn:E.
  - intros [= <- <-]. eapply Hm, E.
  - intros H. eapply not_written_trans; [eapply Hm, E | eapply Hh, H].
Qed.

Lemma leaves_pdf_open path : leaves p (pdf_open env path).
Proof. intros w r w' [= <- <-]. apply not_written_log. discriminate. Qed.

Lemma leaves_invoke_summary prompt : leaves p (invoke_summary env prompt).
Proof. intros w r w' [= <- <-]. apply not_written_log. discriminate. Qed.

Lemma leaves_invoke_sections prompt : leaves p (invoke_sections env prompt).
Proof. intros w r w' [= <- <-]. apply not_written_log. discriminate. Qed.

Lemma leaves_invoke_rule prompt : leaves p (invoke_rule env prompt).
Proof. intros w r w' [= <- <-]. apply not_written_log. discriminate. Qed.

Lemma leaves_invoke_content prompt : leaves p (invoke_content env prompt).
Proof. intros w r w' [= <- <-]. apply not_written_log. discriminate. Qed.

Lemma leaves_now : leaves p (now_isoformat env).
Proof. intros w r w' [= <- <-]. apply not_written_refl. Qed.

Lemma leaves_mkdir_parents d : leaves p (mkdir_parents env d).
Proof.
  intros w r w'. unfold mkdir_parents. destruct (mkdir_ok env _).
  - intros [= <- <-]. apply not_written_log. discriminate.
  - intros [= <- <-]. apply not_written_refl.
Qed.

Lemma leaves_write_text q text :
  Path.to_str q <> p -> leaves p (write_text env q text).
Proof.
  intros N w r w'. unfold write_text.
  destruct (open_w_ok env _); [|destruct (write_left env _)].
  - intros [= <- <-]. split; simpl.
    + apply lookup_insert_ne. exact N.
    + exists [EvWrite (Path.to_str q)]. split; [reflexivity|].
      intros [H|[]]. congruence.
  - intros [= <- <-]. split; simpl.
    + apply lookup_insert_ne. exact N.
    + exists [EvWrite (Path.to_str q)]. split; [reflexivity|].
      intros [H|[]]. congruence.
  - intros [= <- <-]. apply not_written_refl.
Qed.

Lemma leaves_init key : leaves p (GeminiAnalyzer_init env key).
Proof.
  unfold GeminiAnalyzer_init.
  destruct key as [k|]; [destruct (truthy k)|];
    repeat match goal with
           | |- context [match ?x with _ => _ end] => destruct x
           end;
    auto using @leaves_ret, @leaves_raise.
Qed.

Lemma leaves_check_rule rule text : leaves p (check_rule env rule text).
Proof.
  apply leaves_try; [apply leaves_bind|]; intros;
    auto using @leaves_ret, leaves_invoke_rule.
Qed.

Lemma leaves_rule_loop rs text :
  forall results, leaves p (rule_loop env rs text results).
Proof.
  induction rs as [|rule rest IH]; intros results; simpl.
  - apply leaves_ret.
  - apply leaves_bind; [apply leaves_check_rule | intros; apply IH].
Qed.

End Orchestrator.

Create HintDb leaves.

#[local] Hint Resolve leaves_ret leaves_raise leaves_pdf_open leaves_invoke_summary
  leaves_invoke_sections leaves_invoke_rule leaves_invoke_content leaves_now
  leaves_mkdir_parents leaves_init leaves_check_rule leaves_rule_loop : leaves.

Ltac leaves_steps :=
  repeat first
    [ solve [auto with leaves]
    | apply leaves_bind; [|intros ?]
    | apply leaves_try; [|intros ?] ].

Section Pipeline.

Variable env : Env.

Lemma report_path_eq : report_path = "output/final_report.json".
Proof. reflexivity. Qed.

Lemma report_file_eq :
  Path.to_str (Path.of_str report_path) = "output/final_report.json".
Proof. reflexivity. Qed.

Lemma report_dir_eq :
  Path.to_str (Path.parent (Path.of_str report_path)) = "output".
Proof. reflexivity. Qed.

Lemma text_file_eq :
  Path.to_str (Path.div (Path.of_str (Path.to_str output_dir)) "extracted_text.txt")
  = "output/extracted_text.txt".
Proof. reflexivity. Qed.

Lemma leaves_extract_text p path : leaves p (extract_text_from_pdf env path).
Proof. unfold extract_text_from_pdf. leaves_steps. Qed.

Lemma leaves_get_pdf_metadata p path : leaves p (get_pdf_metadata env path).
Proof. unfold get_pdf_metadata. leaves_steps. Qed.

Lemma leaves_save_extracted_text text :
  leaves report_path (save_extracted_text env text (Path.to_str output_dir)).
Proof.
  unfold save_extracted_text. leaves_steps.
  apply leaves_write_text. rewrite text_file_eq, report_path_eq. discriminate.
Qed.

Lemma leaves_summarize_act p self text : leaves p (summarize_act env self text).
Proof. unfold summarize_act. leaves_steps. Qed.

Lemma leaves_extract_sections p self text :
  leaves p (extract_legislative_sections env self text).
Proof. unfold extract_legislative_sections. leaves_steps. Qed.

Lemma leaves_apply_rule_checks p self text :
  leaves p (apply_rule_checks env self text).
Proof. unfold apply_rule_checks. auto with leaves. Qed.

#[local] Hint Resolve leaves_extract_text leaves_get_pdf_metadata
  leaves_save_extracted_text leaves_summarize_act leaves_extract_sections
  leaves_apply_rule_checks : leaves.

Lemma leaves_task1 c : leaves report_path (task1 env c).
Proof. unfold task1. leaves_steps. Qed.

Lemma leaves_task2 text c : leaves report_path (task2 env text c).
Proof. unfold task2. leaves_steps. Qed.

Lemma leaves_task3 a text c : leaves report_path (task3 env a text c).
Proof. unfold task3. leaves_steps. Qed.

Lemma leaves_task4 a text c : leaves report_path (task4 env a text c).
Proof. unfold task4. leaves_steps. Qed.

#[local] Hint Resolve leaves_task1 leaves_task2 leaves_task3 leaves_task4
  : leaves.

Lemma leaves_run_tasks c : leaves report_path (run_tasks env c).
Proof. unfold run_tasks. leaves_steps. Qed.

(** [main], one call after the other. *)
Lemma main_cases w :
  main env w =
  if negb (path_exists env (Path.to_str pdf_path)) then (1%Z, w)
  else match run_tasks env JSONCompiler_init w with
       | (Raise e, w1) => (1%Z, w1)
       | (Ok c, w4) =>
           match save_to_file env c report_path w4 with
           | (Ok _, w5) => (0%Z, w5)
           | (Raise _, w5) => (1%Z, w5)
           end
       end.
Proof.
  unfold main, main_try, bind. fold report_path.
  destruct (negb _); [reflexivity|].
  destruct (run_tasks env JSONCompiler_init w) as [[c|e] w4]; [|reflexivity].
  destruct (save_to_file env c report_path w4) as [[q|e] w5]; reflexivity.
Qed.

Lemma save_report_run c w4 :
  save_to_file env c report_path w4 =
  if mkdir_ok env "output" then
    if open_w_ok env "output/final_report.json" then
      (Ok (Path.of_str report_path),
       {| files := <["output/final_report.json" :=
                       utf8_encode (Json.dumps (JDict (report c)))]> (files w4);
          trace := trace w4
                   ++ [EvMkdir "output"; EvWrite "output/final_report.json"] |})
    else
      match write_left env "output/final_report.json" with
      | None => (Raise ("cannot open " +:+ "output/final_report.json"),
                 log (EvMkdir "output") w4)
      | Some k => (Raise ("cannot write " +:+ "output/final_report.json"),
                   report_cut c k w4)
      end
  else (Raise ("cannot create directory " +:+ "output"), w4).
Proof.
  unfold save_to_file, bind, mkdir_parents, write_text.
  rewrite report_dir_eq, report_file_eq.
  destruct (mkdir_ok env "output"); [|reflexivity].
  destruct (open_w_ok env "output/final_report.json").
  - unfold ret, log. simpl. rewrite <- app_assoc. reflexivity.
  - destruct (write_left env "output/final_report.json"); [|reflexivity].
    unfold report_cut, log. simpl. rewrite <- app_assoc. reflexivity.
Qed.


(** A run of the four tasks that returns has made the five calls on the
    accumulator, in order. *)
Lemma run_tasks_ok_inv w c w4 :
  run_tasks env JSONCompiler_init w = (Ok c, w4) ->
  exists date meta text summary sections checks,
    c = after [ AddMetadata date meta; AddTask1 text pdf_path; AddTask2 summary;
                AddTask3 sections; AddTask4 checks ].
Proof.
  unfold run_tasks, task1, task2, task3, task4. intros H.
  repeat match type of H with
         | bind _ _ _ = (Ok _, _) =>
             let a := fresh "a" in let w1 := fresh "w" in let Ha := fresh "Ha" in
             apply bind_ok_inv in H as (a & w1 & Ha & H);
             try (unfold ret in Ha; injection Ha as <- <-)
         end.
  repeat match goal with
         | Hx : bind _ _ _ = (Ok _, _) |- _ =>
             let a := fresh "a" in let w1 := fresh "w" in let Ha := fresh "Ha" in
             apply bind_ok_inv in Hx as (a & w1 & Ha & Hx)
         | Hx : ret _ _ = (Ok _, _) |- _ => unfold ret in Hx; injection Hx as <- <-
         end.
  simpl. repeat eexists.
Qed.

(** How a run of [main] ends: with exit code 1 and the report not
    written; with exit code 1 after the four tasks and a write of the
    report that stopped on the way; or with exit code 0 after the four
    tasks and the save. *)
Lemma main_outcome w :
  (fst (main env w) = 1%Z /\ not_written report_path w (snd (main env w)))
  \/ (exists c w4 k,
        path_exists env (Path.to_str pdf_path) = true
        /\ run_tasks env JSONCompiler_init w = (Ok c, w4)
        /\ raises (save_to_file env c report_path) w4
        /\ main env w = (1%Z, report_cut c k w4))
  \/ exists c w4,
       path_exists env (Path.to_str pdf_path) = true
       /\ run_tasks env JSONCompiler_init w = (Ok c, w4)
       /\ main env w
          = (0%Z,
             {| files := <["output/final_report.json" :=
                             utf8_encode (Json.dumps (JDict (report c)))]>
                           (files w4);
                trace := trace w4 ++ [ EvMkdir "output";
                                       EvWrite "output/final_report.json" ] |}).
Proof.
  rewrite main_cases.
  destruct (path_exists env (Path.to_str pdf_path)); simpl;
    [|left; split; [reflexivity | apply not_written_refl]].
  destruct (run_tasks env JSONCompiler_init w) as [[c|e] w4] eqn:R.
  - pose proof (leaves_run_tasks _ _ _ _ R) as L.
    pose proof (save_report_run c w4) as S. rewrite S.
    destruct (mkdir_ok env "output");
      [destruct (open_w_ok env "output/final_report.json");
       [|destruct (write_left env "output/final_report.json") as [k|]]|].
    + right. right. exists c, w4. auto.
    + right. left. exists c, w4, k.
      split; [reflexivity|]. split; [reflexivity|]. split; [|reflexivity].
      exists ("cannot write " +:+ "output/final_report.json"), (report_cut c k w4).
      exact S.
    + left. split; [reflexivity|]. simpl.
      eapply not_written_trans; [exact L|]. apply not_written_log. discriminate.
    + left. split; [reflexivity | exact L].
  - left. split; [reflexivity|]. exact (leaves_run_tasks _ _ _ _ R).
Qed.



End Pipeline.





(** C10: each of [add_task1_result] .. [add_task4_result] writes "status":
    "completed" into its section whatever it is given, the fallback
    placeholders of the analysis client included; and in every run of [main]
    that exits with code 0 the saved report says "completed" for all four
    tasks. *)
Theorem task_status_always_completed :
  (forall text path self,
      section_field "task1_text_extraction" "status"
        (add_task1_result text path self) = Some (JStr "completed"))
  /\ (forall summary self,
      section_field "task2_summary" "status"
        (add_task2_result summary self) = Some (JStr "completed"))
  /\ (forall sections self,
      section_field "task3_legislative_sections" "status"
        (add_task3_result sections self) = Some (JStr "completed"))
  /\ (forall rule_checks self,
      section_field "task4_rule_checks" "status"
        (add_task4_result rule_checks self) = Some (JStr "completed"))
  /\ (forall e self,
      section_field "task3_legislative_sections" "status"
        (add_task3_result sections_fallback self) = Some (JStr "completed")
      /\ section_field "task4_rule_checks" "status"
           (add_task4_result (map (fun rule => rule_error rule e) rules) self)
         = Some (JStr "completed"))
  /\ (forall env w w',
      main env w = (0%Z, w') ->
      exists c,
        files w' !! "output/final_report.json"
        = Some (utf8_encode (Json.dumps (JDict (report c))))
        /\ all_completed c).
Proof.
  assert (forall k v d field,
             match PyDict.get k (PyDict.set k (JDict v) d) with
             | Some (JDict d') => PyDict.get field d'
             | _ => None
             end = PyDict.get field v) as G
    by (intros; rewrite get_set_eq; reflexivity).
  repeat (split; [intros; unfold section_field; simpl report; rewrite G;
                  reflexivity|]).
  split.
  - intros e self.
    split; unfold section_field; simpl report; rewrite G; reflexivity.
  - intros env w w' H.
    destruct (main_outcome env w)
      as [[Hc _]|[(c & w4 & k & _ & _ & _ & Hm)|(c & w4 & _ & R & Hm)]].
    + rewrite H in Hc. discriminate.
    + rewrite H in Hm. discriminate.
    + exists c. rewrite H in Hm. injection Hm as ->. split.
      * simpl. apply lookup_insert_eq.
      * apply run_tasks_ok_inv in R
          as (date & meta & text & summary & sections & checks & ->).
        repeat constructor.
Qed.

Lemma task_status_always_completed_witness :
  fst (main Samples.env_degraded Samples.w0) = 0%Z
  /\ exists c,
       files (snd (main Samples.env_degraded Samples.w0))
         !! "output/final_report.json"
       = Some (utf8_encode (Json.dumps (JDict (report c))))
       /\ all_completed c.
Proof.
  split; [vm_compute; reflexivity|].
  apply (proj2 (proj2 (proj2 (proj2 (proj2 task_status_always_completed))))
           Samples.env_degraded Samples.w0).
  vm_compute. reflexivity.
Defined.

(** The run behind it: every structured call fails to decode, and the report
    is saved all the same, with the placeholders, six "error" checks, no
    check passed or failed, and "completed" throughout. *)
Example degraded_run :
  exists c w',
    main Samples.env_degraded Samples.w0 = (0%Z, w')
    /\ files w' !! "output/final_report.json"
       = Some (utf8_encode (Json.dumps (JDict (report c))))
    /\ section_field "task2_summary" "summary_points" c
       = Some (JList [JStr "first point"; JStr "second point"])
    /\ section_field "task3_legislative_sections" "sections" c
       = Some (JDict sections_fallback)
    /\ section_field "task4_rule_checks" "checks" c
       = Some (JList (map (fun rule => JDict (rule_error rule "schema mismatch"))
                       rules))
    /\ section_field "task4_rule_checks" "passed" c = Some (JInt 0)
    /\ section_field "task4_rule_checks" "failed" c = Some (JInt 0)
    /\ all_completed c.
Proof.
  exists (after [ AddMetadata "2025-11-03T10:00:00"
                    [ ("total_pages", JInt 4); ("author", JStr "Unknown");
                      ("title", JStr "Universal Credit Act 2025");
                      ("creation_date", JStr "Unknown") ];
                  AddTask1 (join NL ["Section 1. Purpose"; "An Act to amend";
                                    "Section 2. Payments"]) pdf_path;
                  AddTask2 [("summary", JList [JStr "first point";
                                               JStr "second point"])];
                  AddTask3 sections_fallback;
                  AddTask4 (map (fun rule => rule_error rule "schema mismatch")
                              rules) ]).
  eexists. split; [vm_compute; reflexivity|].
  repeat split; try (vm_compute; reflexivity); repeat constructor.
Qed.

(** * Further properties of the code *)

(** ** Cleaning text *)

(** X1: [clean_text] removes whitespace and nothing else: the characters
    of the cleaned text that are not whitespace are those of the raw text,
    in the same order. *)
Theorem clean_text_keeps_characters (text : string) :
  non_spaces (clean_text text) = non_spaces text.
Proof. apply clean_text_non_spaces. Qed.

(** X2: cleaning a text that is already clean changes nothing:
    [clean_text (clean_text text) = clean_text text]. *)
Theorem clean_text_idempotent (text : string) :
  clean_text (clean_text text) = clean_text text.
Proof.
  pose proof (cleaned_lines_clean _ (split_on_pieces nl text)) as HC.
  unfold clean_text.
  destruct (cleaned_lines (split_on nl text)) as [|x rest]; [reflexivity|].
  change NL with (String nl ""). rewrite split_on_join.
  - rewrite (cleaned_lines_fixed _ HC). reflexivity.
  - discriminate.
  - eapply Forall_impl; [exact HC|]. unfold clean_line. simpl. tauto.
Qed.

Lemma clean_text_is_empty text : clean_text text = "" <-> all_space text = true.
Proof.
  rewrite all_space_non_spaces, <- (clean_text_non_spaces text).
  split; [intros ->; reflexivity|]. intros H.
  destruct (clean_text_lines text) as [_ HC].
  destruct (clean_text text) as [|c s] eqn:T; [reflexivity|].
  exfalso. unfold lines_of in HC.
  pose proof (split_on_not_nil nl (String c s)) as NN.
  pose proof (join_split_on nl (String c s)) as J.
  destruct (split_on nl (String c s)) as [|l ls]; [congruence|].
  inversion HC as [|? ? (Tl & _ & Ll & _) _]; subst.
  destruct l as [|d l]; [discriminate|]. simpl in Ll.
  assert (exists r, String c s = String d r) as [r Hr].
  { rewrite <- J. destruct ls; simpl; eauto. }
  rewrite Hr in H. simpl in H. rewrite Ll in H. discriminate.
Qed.

(** X3: the cleaned text is empty exactly when the raw text holds nothing
    but whitespace (newlines included). *)
Theorem clean_text_empty_iff (text : string) :
  clean_text text = "" <-> all_space text = true.
Proof. apply clean_text_is_empty. Qed.

(** X4: cleaning never makes a text longer. *)
Theorem clean_text_length (text : string) :
  String.length (clean_text text) <= String.length text.
Proof.
  unfold clean_text. rewrite join_nl_length.
  pose proof (cleaned_lines_weight (split_on nl text)) as W.
  pose proof (join_nl_length (split_on nl text)) as J.
  change NL with (String nl "") in J. rewrite join_split_on in J. lia.
Qed.

Section Documents.

Variable env : Env.

Lemma text_content_blank ps :
  forallb all_space (text_content ps) = forallb page_blank ps.
Proof.
  induction ps as [|[t|] ps IH]; simpl; [reflexivity| |exact IH].
  destruct t as [|c t]; simpl; [exact IH|]. rewrite IH. reflexivity.
Qed.

Lemma extract_text_run path w :
  extract_text_from_pdf env path w
  = (match pdfplumber_open env path with
     | Ok pdf => Ok (document_text pdf)
     | Raise e => Raise e
     end, log (EvPdfOpen path) w).
Proof.
  unfold extract_text_from_pdf, bind, pdf_open.
  destruct (pdfplumber_open env path); reflexivity.
Qed.

Lemma document_text_empty pdf :
  document_text pdf = "" <-> forallb page_blank (pages pdf) = true.
Proof.
  unfold document_text.
  rewrite clean_text_is_empty, all_space_join by reflexivity.
  rewrite text_content_blank. reflexivity.
Qed.

End Documents.

(** ** The stages of a run, in closed form *)

Section Stages.

Variable env : Env.

Lemma with_events_nil w : with_events [] w = w.
Proof. unfold with_events. rewrite app_nil_r. destruct w; reflexivity. Qed.

Lemma with_events_app e1 e2 w :
  with_events e2 (with_events e1 w) = with_events (e1 ++ e2) w.
Proof. unfold with_events. simpl. rewrite app_assoc. reflexivity. Qed.

Lemma log_with_events ev w : log ev w = with_events [ev] w.
Proof. reflexivity. Qed.

Lemma with_events_length evs w :
  length (trace (with_events evs w)) = length (trace w) + length evs.
Proof. unfold with_events. simpl. apply length_app. Qed.

Lemma get_pdf_metadata_run path w :
  get_pdf_metadata env path w
  = (match pdfplumber_open env path with
     | Ok pdf => Ok (pdf_info pdf)
     | Raise e => Raise e
     end, with_events [EvPdfOpen path] w).
Proof.
  unfold get_pdf_metadata, bind, pdf_open.
  destruct (pdfplumber_open env path); reflexivity.
Qed.

Lemma init_run w :
  GeminiAnalyzer_init env None w
  = (if key_ok env then Ok {| api_key := env_key env |}
     else Raise "GEMINI_API_KEY not found in environment", w).
Proof.
  unfold GeminiAnalyzer_init, key_ok, env_key.
  destruct (getenv_api_key env) as [k|]; [destruct (truthy k)|]; reflexivity.
Qed.

Lemma summarize_run self text w :
  summarize_act env self text w
  = (summary_answer env (length (trace w)) text,
     with_events (repeat (EvLLM (summary_prompt text))
                    (summary_calls env (length (trace w)) text)) w).
Proof.
  unfold summarize_act, try_except, bind, invoke_summary, invoke_content,
    summary_answer, summary_calls.
  destruct (structured_summary env (length (trace w)) (summary_prompt text));
    [reflexivity|].
  rewrite log_with_events, with_events_length, Nat.add_1_r.
  rewrite log_with_events, with_events_app.
  destruct (llm_content env (S (length (trace w))) (summary_prompt text));
    reflexivity.
Qed.

Lemma sections_run self text w :
  extract_legislative_sections env self text w
  = (Ok (sections_outcome env (length (trace w)) text),
     with_events [EvLLM (sections_prompt text)] w).
Proof.
  unfold extract_legislative_sections, try_except, bind, invoke_sections,
    sections_outcome.
  destruct (structured_sections env (length (trace w)) (sections_prompt text));
    reflexivity.
Qed.

Lemma rule_checks_run self text w :
  apply_rule_checks env self text w
  = (Ok (rule_outcomes env (length (trace w)) rules text),
     with_events (map (fun rule => EvLLM (rule_prompt rule text)) rules) w).
Proof. apply (rule_loop_run env text rules [] w). Qed.

Lemma save_extracted_text_run text w :
  save_extracted_text env text (Path.to_str output_dir) w
  = if mkdir_ok env "output" then
      if open_w_ok env text_file then
        (Ok (Path.of_str text_file),
         {| files := <[text_file := utf8_encode text]> (files w);
            trace := trace w ++ [EvMkdir "output"; EvWrite text_file] |})
      else failed_write env text_file text [EvMkdir "output"] w
    else (Raise ("cannot create directory " +:+ "output"), w).
Proof.
  unfold save_extracted_text, bind, mkdir_parents, write_text, failed_write.
  change (Path.to_str (Path.parent (Path.div (Path.of_str (Path.to_str output_dir))
                                      "extracted_text.txt"))) with "output".
  change (Path.to_str (Path.div (Path.of_str (Path.to_str output_dir))
                         "extracted_text.txt")) with text_file.
  destruct (mkdir_ok env "output"); [|reflexivity].
  destruct (open_w_ok env text_file).
  - unfold ret, log. simpl. rewrite <- app_assoc. reflexivity.
  - destruct (write_left env text_file); [|reflexivity].
    unfold log. simpl. rewrite <- app_assoc. reflexivity.
Qed.

Lemma task1_run c w :
  task1 env c w
  = match pdfplumber_open env pdf_file with
    | Raise e => (Raise e, with_events [EvPdfOpen pdf_file] w)
    | Ok pdf =>
        if mkdir_ok env "output" then
          if open_w_ok env text_file then
            (Ok (document_text pdf,
                 add_task1_result (document_text pdf) pdf_path
                   (add_metadata (datetime_now env (length (trace w) + 2))
                      (pdf_info pdf) c)),
             {| files := <[text_file := utf8_encode (document_text pdf)]> (files w);
                trace := trace w ++ [ EvPdfOpen pdf_file; EvPdfOpen pdf_file;
                                      EvMkdir "output"; EvWrite text_file ] |})
          else failed_write env text_file (document_text pdf)
                 [EvPdfOpen pdf_file; EvPdfOpen pdf_file; EvMkdir "output"] w
        else (Raise ("cannot create directory " +:+ "output"),
              with_events [EvPdfOpen pdf_file; EvPdfOpen pdf_file] w)
    end.
Proof.
  unfold task1, bind.
  change (Path.to_str pdf_path) with pdf_file.
  rewrite extract_text_run, log_with_events.
  destruct (pdfplumber_open env pdf_file) as [pdf|e] eqn:O; [|reflexivity].
  rewrite get_pdf_metadata_run, O, with_events_app. cbn [app].
  unfold now_isoformat. rewrite save_extracted_text_run.
  rewrite with_events_length. cbn [length].
  destruct (mkdir_ok env "output"); [|reflexivity].
  destruct (open_w_ok env text_file).
  - unfold ret, with_events. simpl. rewrite <- app_assoc. reflexivity.
  - unfold failed_write. destruct (write_left env text_file).
    + unfold with_events. simpl. rewrite <- app_assoc. reflexivity.
    + rewrite with_events_app. reflexivity.
Qed.

Lemma task2_run text c w :
  task2 env text c w
  = if key_ok env then
      (match summary_answer env (length (trace w)) text with
       | Ok summary => Ok ({| api_key := env_key env |}, add_task2_result summary c)
       | Raise e => Raise e
       end,
       with_events (repeat (EvLLM (summary_prompt text))
                      (summary_calls env (length (trace w)) text)) w)
    else (Raise "GEMINI_API_KEY not found in environment", w).
Proof.
  unfold task2, bind. rewrite init_run.
  destruct (key_ok env); [|reflexivity].
  rewrite summarize_run.
  destruct (summary_answer env (length (trace w)) text); reflexivity.
Qed.

Lemma task3_run a text c w :
  task3 env a text c w
  = (Ok (add_task3_result (sections_outcome env (length (trace w)) text) c),
     with_events [EvLLM (sections_prompt text)] w).
Proof. unfold task3, bind. rewrite sections_run. reflexivity. Qed.

Lemma task4_run a text c w :
  task4 env a text c w
  = (Ok (add_task4_result (rule_outcomes env (length (trace w)) rules text) c),
     with_events (map (fun rule => EvLLM (rule_prompt rule text)) rules) w).
Proof. unfold task4, bind. rewrite rule_checks_run. reflexivity. Qed.

End Stages.

Section Runs.

Variable env : Env.

Lemma run_tasks_run w :
  run_tasks env JSONCompiler_init w
  = match pdfplumber_open env pdf_file with
    | Raise e => (Raise e, with_events [EvPdfOpen pdf_file] w)
    | Ok pdf =>
        if mkdir_ok env "output" then
          if open_w_ok env text_file then
            if key_ok env then
              match summary_answer env (length (trace w) + 4) (document_text pdf) with
              | Ok summary =>
                  (Ok (run_report env (length (trace w)) pdf summary),
                   {| files := with_text pdf w;
                      trace := trace w ++ run_events env (length (trace w)) pdf |})
              | Raise e =>
                  (Raise e,
                   {| files := with_text pdf w;
                      trace := trace w ++ task1_events
                               ++ summary_events env (length (trace w)) pdf |})
              end
            else (Raise "GEMINI_API_KEY not found in environment",
                  {| files := with_text pdf w;
                     trace := trace w ++ task1_events |})
          else failed_write env text_file (document_text pdf)
                 [EvPdfOpen pdf_file; EvPdfOpen pdf_file; EvMkdir "output"] w
        else (Raise ("cannot create directory " +:+ "output"),
              with_events [EvPdfOpen pdf_file; EvPdfOpen pdf_file] w)
    end.
Proof.
  unfold run_tasks, bind. rewrite task1_run.
  destruct (pdfplumber_open env pdf_file) as [pdf|e]; [|reflexivity].
  destruct (mkdir_ok env "output"); [|reflexivity].
  destruct (open_w_ok env text_file);
    [|unfold failed_write; destruct (write_left env text_file); reflexivity].
  cbn [fst snd]. rewrite task2_run.
  destruct (key_ok env); [|reflexivity].
  cbn [trace]. rewrite length_app. cbn [length].
  destruct (summary_answer env (length (trace w) + 4) (document_text pdf))
    as [summary|e] eqn:S.
  - cbn [fst snd]. rewrite task3_run, task4_run.
    rewrite !with_events_length, repeat_length. cbn [trace length].
    rewrite length_app. cbn [length].
    unfold run_report, run_events, summary_events, task1_events, with_events, after.
    cbn [fold_left call trace files].
    replace (length (trace w) + 4
             + summary_calls env (length (trace w) + 4) (document_text pdf) + 1)
      with (length (trace w) + 5
            + summary_calls env (length (trace w) + 4) (document_text pdf)) by lia.
    rewrite <- !app_assoc. reflexivity.
  - unfold with_events, summary_events, task1_events. cbn [trace files].
    rewrite <- !app_assoc. reflexivity.
Qed.

End Runs.

(** ** The text extractor, further *)

(** X5: for a document that opens, [extract_text_from_pdf] returns a text,
    and the text is empty exactly when no page holds a character that is
    not whitespace (pages without text and documents without pages
    included): an empty text is a result, not an error. *)
Theorem extract_text_empty_iff (env : Env) (path : string) (w : World)
    (pdf : Pdf) :
  pdfplumber_open env path = Ok pdf ->
  exists out,
    extract_text_from_pdf env path w = (Ok out, log (EvPdfOpen path) w)
    /\ (out = "" <-> forallb page_blank (pages pdf) = true).
Proof.
  intros O. exists (document_text pdf). split.
  - rewrite extract_text_run, O. reflexivity.
  - apply document_text_empty.
Qed.

Lemma extract_text_empty_iff_witness :
  exists out,
    extract_text_from_pdf (Samples.with_pdf (Ok Samples.blank_pages) Samples.env_ok)
      "data/scan.pdf" Samples.w0
    = (Ok out, log (EvPdfOpen "data/scan.pdf") Samples.w0)
    /\ (out = "" <-> forallb page_blank (pages Samples.blank_pages) = true).
Proof.
  apply (extract_text_empty_iff
           (Samples.with_pdf (Ok Samples.blank_pages) Samples.env_ok)
           "data/scan.pdf" Samples.w0 Samples.blank_pages).
  reflexivity.
Defined.

Section Metadata.

Lemma assoc_get_reads d key : reads_from d key (assoc_get key "Unknown" d).
Proof.
  induction d as [|[k v] d IH]; simpl.
  - left. split; [tauto | reflexivity].
  - destruct (String.eqb_spec k key) as [->|N].
    + right. exists [], d. split; [reflexivity | simpl; tauto].
    + remember (assoc_get key "Unknown" d) as v0 eqn:V. clear V.
      destruct IH as [[Hn ->]|(front & back & E & Hn)].
      * left. split; [|reflexivity]. simpl. tauto.
      * right. exists ((k, v) :: front), back. split; [simpl; f_equal; exact E|].
        simpl. tauto.
Qed.

End Metadata.

(** X6: for a document that opens, [get_pdf_metadata] returns a dictionary
    with exactly the keys total_pages, author, title and creation_date,
    whatever the document holds: total_pages is the number of pages, and
    each of the other three is the document's Author, Title or CreationDate
    entry, or "Unknown" when the entry, or the whole information dictionary,
    is missing.  When the document does not open, the call raises. *)
Theorem get_pdf_metadata_fields (env : Env) (path : string) (w : World) :
  match pdfplumber_open env path with
  | Ok pdf =>
      exists author title creation_date,
        get_pdf_metadata env path w
        = (Ok [ ("total_pages", JInt (Z.of_nat (length (pages pdf))));
                ("author", JStr author); ("title", JStr title);
                ("creation_date", JStr creation_date) ],
           log (EvPdfOpen path) w)
        /\ (metadata pdf = None ->
            author = "Unknown" /\ title = "Unknown" /\ creation_date = "Unknown")
        /\ (forall d, metadata pdf = Some d ->
            reads_from d "Author" author /\ reads_from d "Title" title
            /\ reads_from d "CreationDate" creation_date)
  | Raise e => get_pdf_metadata env path w = (Raise e, log (EvPdfOpen path) w)
  end.
Proof.
  rewrite get_pdf_metadata_run.
  destruct (pdfplumber_open env path) as [pdf|e]; [|reflexivity].
  unfold pdf_info. do 3 eexists. split; [reflexivity|]. split.
  - intros ->. auto.
  - intros d ->. auto using assoc_get_reads.
Qed.

Lemma get_pdf_metadata_fields_witness :
  get_pdf_metadata (Samples.with_pdf (Ok Cases.signed_pdf) Samples.env_ok)
    "data/act.pdf" Samples.w0
  = (Ok [ ("total_pages", JInt 2); ("author", JStr "Parliament");
          ("title", JStr "Unknown"); ("creation_date", JStr "Unknown") ],
     log (EvPdfOpen "data/act.pdf") Samples.w0).
Proof.
  destruct (get_pdf_metadata_fields
              (Samples.with_pdf (Ok Cases.signed_pdf) Samples.env_ok)
              "data/act.pdf" Samples.w0) as (a & t & c & E & _).
  rewrite E. vm_compute in E. injection E as <- <- <-. reflexivity.
Defined.

(** ** The analysis client, further *)

(** X7: [GeminiAnalyzer(api_key)] takes a non-empty argument as the key,
    whatever the environment holds; with no argument or an empty one it
    takes the key of the environment; and it raises "GEMINI_API_KEY not
    found in environment" exactly when neither is a non-empty string.  It
    sends nothing and writes nothing. *)
Theorem analyzer_key_resolution (env : Env) (key : option string) (w : World) :
  (forall k, key = Some k -> truthy k = true ->
     GeminiAnalyzer_init env key w = (Ok {| api_key := k |}, w))
  /\ (key = None \/ key = Some "" ->
      GeminiAnalyzer_init env key w
      = (if key_ok env then Ok {| api_key := env_key env |}
         else Raise "GEMINI_API_KEY not found in environment", w))
  /\ (raises (GeminiAnalyzer_init env key) w
      <-> (key = None \/ key = Some "")
          /\ (getenv_api_key env = None \/ getenv_api_key env = Some "")).
Proof.
  split; [|split].
  - intros k -> T. unfold GeminiAnalyzer_init. rewrite T, T. reflexivity.
  - intros [->| ->]; [apply init_run|].
    unfold GeminiAnalyzer_init. simpl truthy. cbv iota.
    apply (init_run env w).
  - unfold raises, GeminiAnalyzer_init, raise, ret.
    destruct key as [[|c k]|]; simpl;
      destruct (getenv_api_key env) as [[|c' k']|]; simpl;
      split;
      try (intros (e & w' & H); discriminate H);
      try (intros [[H|H] [H'|H']]; discriminate);
      try (intros _; eauto);
      try (intros _; split; auto).
Qed.

(** X8: [summarize_act] sends its prompt once when the structured reply
    decodes, and then returns exactly the five points "Purpose: ..",
    "Key Definitions: ..", "Eligibility: ..", "Obligations: ..",
    "Enforcement: .." in this order; otherwise it sends the same prompt a
    second time, as a plain request.  It sends nothing else and touches no
    file. *)
Theorem summarize_act_requests (env : Env) (self : GeminiAnalyzer)
    (text : string) (w : World) :
  exists r w',
    summarize_act env self text w = (r, w')
    /\ files w' = files w
    /\ match structured_summary env (length (trace w)) (summary_prompt text) with
       | Ok s =>
           trace w' = trace w ++ [EvLLM (summary_prompt text)]
           /\ r = Ok [ ("summary",
                        JList [ JStr ("Purpose: " +:+ purpose s);
                                JStr ("Key Definitions: " +:+ key_definitions s);
                                JStr ("Eligibility: " +:+ summary_eligibility s);
                                JStr ("Obligations: " +:+ summary_obligations s);
                                JStr ("Enforcement: " +:+ enforcement s) ]) ]
       | Raise _ =>
           trace w' = trace w ++ [ EvLLM (summary_prompt text);
                                   EvLLM (summary_prompt text) ]
       end.
Proof.
  do 2 eexists. split; [apply summarize_run|]. split; [reflexivity|].
  unfold summary_answer, summary_calls, with_events.
  destruct (structured_summary env (length (trace w)) (summary_prompt text));
    simpl; auto.
Qed.

(** X9: [extract_legislative_sections] never raises: it sends one prompt
    and returns a dictionary with exactly the seven keys definitions,
    obligations, responsibilities, eligibility, payments, penalties and
    record_keeping, in this order, each holding a string, whether the
    reply decoded or not; it touches no file. *)
Theorem extract_sections_total (env : Env) (self : GeminiAnalyzer)
    (text : string) (w : World) :
  exists sections w',
    extract_legislative_sections env self text w = (Ok sections, w')
    /\ PyDict.keys sections = section_fields
    /\ Forall (fun kv => exists s, snd kv = JStr s) sections
    /\ files w' = files w
    /\ trace w' = trace w ++ [EvLLM (sections_prompt text)].
Proof.
  do 2 eexists. split; [apply sections_run|].
  unfold sections_outcome.
  destruct (structured_sections env (length (trace w)) (sections_prompt text));
    repeat split; repeat constructor; simpl; eauto.
Qed.

(** ** The orchestrator, further *)

Section MainRuns.

Variable env : Env.

Lemma main_run w :
  main env w
  = if negb (path_exists env pdf_file) then (1%Z, w)
    else match run_tasks env JSONCompiler_init w with
         | (Raise e, w1) => (1%Z, w1)
         | (Ok c, w4) =>
             if mkdir_ok env "output" then
               if open_w_ok env report_file then
                 (0%Z,
                  {| files := <[report_file :=
                                  utf8_encode (Json.dumps (JDict (report c)))]>
                                (files w4);
                     trace := trace w4 ++ [EvMkdir "output"; EvWrite report_file] |})
               else
                 match write_left env report_file with
                 | None => (1%Z, with_events [EvMkdir "output"] w4)
                 | Some k => (1%Z, report_cut c k w4)
                 end
             else (1%Z, w4)
         end.
Proof.
  rewrite main_cases. change (Path.to_str pdf_path) with pdf_file.
  destruct (negb (path_exists env pdf_file)); [reflexivity|].
  destruct (run_tasks env JSONCompiler_init w) as [[c|e] w4]; [|reflexivity].
  rewrite save_report_run. unfold report_file.
  destruct (mkdir_ok env "output"); [|reflexivity].
  destruct (open_w_ok env "output/final_report.json"); [reflexivity|].
  destruct (write_left env "output/final_report.json"); reflexivity.
Qed.

Lemma summary_answer_ok t text :
  (exists summary, summary_answer env t text = Ok summary)
  <-> (exists s, structured_summary env t (summary_prompt text) = Ok s)
      \/ (exists c, llm_content env (S t) (summary_prompt text) = Ok c).
Proof.
  unfold summary_answer.
  destruct (structured_summary env t (summary_prompt text)) as [s|e].
  - split; eauto.
  - destruct (llm_content env (S t) (summary_prompt text)) as [c|e'].
    + split; eauto.
    + split; [intros [? H]; discriminate|].
      intros [[? H]|[? H]]; discriminate.
Qed.

End MainRuns.

(** X10: when the document is there and cannot be opened, [main] exits with
    code 1 after that one attempt: no prompt is sent, no directory made, no
    file written. *)
Theorem main_unreadable_pdf (env : Env) (w : World) (e : string) :
  path_exists env pdf_file = true ->
  pdfplumber_open env pdf_file = Raise e ->
  main env w = (1%Z, {| files := files w;
                        trace := trace w ++ [EvPdfOpen pdf_file] |}).
Proof.
  intros P O. rewrite main_run, run_tasks_run, P, O. reflexivity.
Qed.

Lemma main_unreadable_pdf_witness :
  main Cases.env_unreadable Samples.w0
  = (1%Z, {| files := files Samples.w0;
             trace := trace Samples.w0 ++ [EvPdfOpen pdf_file] |}).
Proof.
  apply (main_unreadable_pdf Cases.env_unreadable Samples.w0 "not a PDF");
    reflexivity.
Defined.

(** X11: the API key is looked for only in Task 2.  When the environment
    has none, [main] has by then opened the document twice and saved the
    extracted text to output/extracted_text.txt; it exits with code 1
    without sending any prompt and without a report. *)
Theorem main_without_key (env : Env) (w : World) (pdf : Pdf) :
  path_exists env pdf_file = true ->
  pdfplumber_open env pdf_file = Ok pdf ->
  mkdir_ok env "output" = true ->
  open_w_ok env text_file = true ->
  key_ok env = false ->
  main env w
  = (1%Z,
     {| files := <[text_file := utf8_encode (document_text pdf)]> (files w);
        trace := trace w ++ [ EvPdfOpen pdf_file; EvPdfOpen pdf_file;
                              EvMkdir "output"; EvWrite text_file ] |}).
Proof.
  intros P O D T K. rewrite main_run, run_tasks_run, P, O, D, T, K. reflexivity.
Qed.

Lemma main_without_key_witness :
  main Cases.env_no_key Samples.w0
  = (1%Z,
     {| files := <[text_file := utf8_encode (document_text Samples.three_pages)]>
                   (files Samples.w0);
        trace := trace Samples.w0 ++ [ EvPdfOpen pdf_file; EvPdfOpen pdf_file;
                                       EvMkdir "output"; EvWrite text_file ] |}).
Proof.
  apply (main_without_key Cases.env_no_key Samples.w0 Samples.three_pages);
    reflexivity.
Defined.

(** X12: [main] exits with code 0 exactly when the document is there and
    opens, the output directory can be made and both files written, the
    environment holds a non-empty key, and the summary request is answered,
    by the structured call or else by the plain one.  Failures of the
    section request and of the rule requests never change the exit code. *)
Theorem main_exit_zero_iff (env : Env) (w : World) :
  fst (main env w) = 0%Z
  <-> path_exists env pdf_file = true
      /\ exists pdf,
           pdfplumber_open env pdf_file = Ok pdf
           /\ mkdir_ok env "output" = true
           /\ open_w_ok env text_file = true
           /\ key_ok env = true
           /\ ((exists s,
                  structured_summary env (length (trace w) + 4)
                    (summary_prompt (document_text pdf)) = Ok s)
               \/ (exists c,
                  llm_content env (length (trace w) + 5)
                    (summary_prompt (document_text pdf)) = Ok c))
           /\ open_w_ok env report_file = true.
Proof.
  rewrite main_run, run_tasks_run.
  replace (length (trace w) + 5) with (S (length (trace w) + 4)) by lia.
  split.
  - intros H.
    destruct (path_exists env pdf_file); [|discriminate H].
    destruct (pdfplumber_open env pdf_file) as [pdf|e]; [|discriminate H].
    destruct (mkdir_ok env "output") eqn:D; [|discriminate H].
    destruct (open_w_ok env text_file);
      [|unfold failed_write in H; destruct (write_left env text_file);
        discriminate H].
    destruct (key_ok env); [|discriminate H].
    destruct (summary_answer env (length (trace w) + 4) (document_text pdf))
      as [summary|e] eqn:S; [|discriminate H].
    simpl in H.
    destruct (open_w_ok env report_file);
      [|destruct (write_left env report_file); discriminate H].
    split; [reflexivity|]. exists pdf. repeat split.
    apply summary_answer_ok. eauto.
  - intros (P & pdf & O & D & T & K & S & R).
    apply summary_answer_ok in S as [summary S].
    rewrite P, O, D, T, K, S. simpl. rewrite R. reflexivity.
Qed.

(** X13: a run of [main] that exits with code 0 has done exactly this, in
    this order: opened the document twice, made output/ and written the
    extracted text, sent the summary prompt (once, or twice when the
    structured reply did not decode), the section prompt and the six rule
    prompts, all built from the same extracted text, then made output/ again
    and written the report.  The two files hold the text and the report of
    the five [add_*] calls on these results; no other file has changed. *)
Theorem main_success_effects (env : Env) (w w' : World) :
  main env w = (0%Z, w') ->
  exists pdf summary,
    pdfplumber_open env pdf_file = Ok pdf
    /\ summary_answer env (length (trace w) + 4) (document_text pdf) = Ok summary
    /\ trace w'
       = trace w ++ run_events env (length (trace w)) pdf
         ++ [EvMkdir "output"; EvWrite report_file]
    /\ files w'
       = <[report_file :=
             utf8_encode (Json.dumps (JDict (report
               (run_report env (length (trace w)) pdf summary))))]>
           (<[text_file := utf8_encode (document_text pdf)]> (files w))
    /\ (forall q, q <> text_file -> q <> report_file ->
          files w' !! q = files w !! q).
Proof.
  rewrite main_run, run_tasks_run. intros H.
  destruct (negb (path_exists env pdf_file)); [discriminate H|].
  destruct (pdfplumber_open env pdf_file) as [pdf|e]; [|discriminate H].
  destruct (mkdir_ok env "output"); [|discriminate H].
  destruct (open_w_ok env text_file);
    [|unfold failed_write in H; destruct (write_left env text_file);
      discriminate H].
  destruct (key_ok env); [|discriminate H].
  destruct (summary_answer env (length (trace w) + 4) (document_text pdf))
    as [summary|e] eqn:S; [|discriminate H].
  destruct (open_w_ok env report_file);
    [|destruct (write_left env report_file); discriminate H].
  injection H as <-. exists pdf, summary. cbn [trace files]. unfold with_text.
  split; [reflexivity|]. split; [exact S|].
  split; [rewrite <- app_assoc; reflexivity|]. split; [reflexivity|].
  intros q Nt Nr. rewrite !lookup_insert_ne by congruence. reflexivity.
Qed.

Lemma main_success_effects_witness :
  exists pdf summary,
    pdfplumber_open Samples.env_ok pdf_file = Ok pdf
    /\ summary_answer Samples.env_ok 4 (document_text pdf) = Ok summary
    /\ trace (snd (main Samples.env_ok Samples.w0))
       = run_events Samples.env_ok 0 pdf
         ++ [EvMkdir "output"; EvWrite report_file]
    /\ length (trace (snd (main Samples.env_ok Samples.w0))) = 14.
Proof.
  destruct (main_success_effects Samples.env_ok Samples.w0
              (snd (main Samples.env_ok Samples.w0)))
    as (pdf & summary & O & S & T & _).
  - vm_compute. reflexivity.
  - exists pdf, summary.
    split; [exact O|]. split; [exact S|]. split; [exact T|].
    rewrite T. vm_compute. reflexivity.
Defined.

(** X14: once Task 1 has run (the document opens, output/ can be made and
    the text file written), output/extracted_text.txt holds the extracted
    text when [main] ends, whatever the exit code: a failure of the key, of
    the summary or of the final save leaves it in place.  Apart from it and
    the report, no file changes. *)
Theorem extracted_text_is_kept (env : Env) (w : World) (pdf : Pdf) :
  path_exists env pdf_file = true ->
  pdfplumber_open env pdf_file = Ok pdf ->
  mkdir_ok env "output" = true ->
  open_w_ok env text_file = true ->
  files (snd (main env w)) !! text_file = Some (utf8_encode (document_text pdf))
  /\ (forall q, q <> text_file -> q <> report_file ->
        files (snd (main env w)) !! q = files w !! q).
Proof.
  intros P O D T. rewrite main_run, run_tasks_run, P, O, D, T. simpl negb.
  cbv iota.
  assert (report_file <> text_file) as N by discriminate.
  destruct (key_ok env);
    [destruct (summary_answer env (length (trace w) + 4) (document_text pdf));
     [destruct (open_w_ok env report_file);
      [|destruct (write_left env report_file)]|]|];
    unfold report_cut; fold report_file;
    cbn [snd files with_events]; unfold with_text;
    (split; [|intros q Nt Nr]);
    rewrite ?(lookup_insert_ne _ report_file) by congruence;
    rewrite ?lookup_insert_eq, ?(lookup_insert_ne _ text_file) by congruence;
    reflexivity.
Qed.

Lemma extracted_text_is_kept_witness :
  fst (main Cases.env_report_refused Samples.w0) = 1%Z
  /\ files (snd (main Cases.env_report_refused Samples.w0)) !! text_file
     = Some (utf8_encode (document_text Samples.three_pages))
  /\ files (snd (main Cases.env_report_refused Samples.w0)) !! report_file = None.
Proof.
  split; [vm_compute; reflexivity|]. split.
  - apply (extracted_text_is_kept Cases.env_report_refused Samples.w0
             Samples.three_pages); reflexivity.
  - vm_compute. reflexivity.
Defined.

(** ** The report accumulator, further *)

Section Overwriting.

Lemma set_set_eq k v1 v2 d :
  PyDict.set k v2 (PyDict.set k v1 d) = PyDict.set k v2 d.
Proof.
  induction d as [|[k' v'] d IH]; simpl.
  - rewrite String.eqb_refl. reflexivity.
  - destruct (String.eqb k' k) eqn:E; simpl.
    + rewrite String.eqb_refl. reflexivity.
    + rewrite E, IH. reflexivity.
Qed.


(** The value a call writes does not depend on the accumulator. *)
Lemma call_writes c :
  exists v, forall self,
    call c self = {| report := PyDict.set (section_of c) (JDict v) (report self) |}.
Proof. destruct c; simpl; eexists; intros; reflexivity. Qed.

Lemma call_call_same c1 c2 self :
  section_of c1 = section_of c2 -> call c2 (call c1 self) = call c2 self.
Proof.
  intros E. destruct (call_writes c1) as [v1 H1], (call_writes c2) as [v2 H2].
  rewrite !H2, H1. simpl. rewrite E, set_set_eq. reflexivity.
Qed.


Lemma fold_calls_keys calls self :
  PyDict.keys (report self) = five_sections ->
  PyDict.keys (report (fold_left (fun s c => call c s) calls self)) = five_sections.
Proof.
  revert self. induction calls as [|c calls IH]; intros self K; [exact K|].
  simpl. apply IH, call_keys, K.
Qed.


End Overwriting.

(** X15: the last write for a section wins: a call on the accumulator
    followed by another call for the same section leaves exactly what the
    second call alone leaves. *)
Theorem add_twice_last_wins (c1 c2 : Call) (self : JSONCompiler) :
  section_of c1 = section_of c2 ->
  call c2 (call c1 self) = call c2 self.
Proof. apply call_call_same. Qed.

Lemma add_twice_last_wins_witness :
  call (AddTask3 sections_fallback)
    (call (AddTask3 [("definitions", JStr "s.1")]) JSONCompiler_init)
  = call (AddTask3 sections_fallback) JSONCompiler_init.
Proof.
  apply (add_twice_last_wins (AddTask3 [("definitions", JStr "s.1")])
           (AddTask3 sections_fallback) JSONCompiler_init).
  reflexivity.
Defined.



(** ** Rule checks whose call failed *)

Section RaisedCalls.

Variable env : Env.

Lemma count_three_le l :
  count_status "pass" l + count_status "fail" l + count_status "error" l
  <= length l.
Proof.
  induction l as [|r l IH]; simpl; [lia|].
  destruct (status_is "pass" r) eqn:P, (status_is "fail" r) eqn:F,
    (status_is "error" r) eqn:E; simpl; try lia;
    match goal with
    | H1 : status_is ?a r = true, H2 : status_is ?b r = true |- _ =>
        pose proof (status_is_functional _ _ _ H1 H2); discriminate
    end.
Qed.

Lemma raised_calls_counted rs text :
  forall t,
    raised_calls env t rs text
    <= count_status "error" (rule_outcomes env t rs text).
Proof.
  induction rs as [|rule rest IH]; intros t; simpl; [lia|].
  specialize (IH (S t)). unfold rule_outcome.
  destruct (structured_rule env t (rule_prompt rule text)) as [r|e].
  - destruct (status_is "error" (RuleCheck_model_dump r)); lia.
  - change (status_is "error" (rule_error rule e)) with true. cbv iota. lia.
Qed.

End RaisedCalls.

(** X17: a rule check whose call failed is never counted as passed or as
    failed: each failed call leaves an entry with status "error", so with
    [k] failed calls out of the six, [passed] + [failed] is at most 6 - k
    (an answer of the model may itself say "error", so the "error" entries
    can be more than [k]). *)
Theorem failed_calls_are_not_counted (env : Env) (self : GeminiAnalyzer)
    (text : string) (w : World) :
  exists results w',
    apply_rule_checks env self text w = (Ok results, w')
    /\ raised_calls env (length (trace w)) rules text
       <= count_status "error" results
    /\ count_status "pass" results + count_status "fail" results
       + count_status "error" results <= 6
    /\ count_status "pass" results + count_status "fail" results
       + raised_calls env (length (trace w)) rules text <= 6.
Proof.
  do 2 eexists. split; [apply rule_checks_run|].
  pose proof (raised_calls_counted env rules text (length (trace w))) as R.
  pose proof (count_three_le (rule_outcomes env (length (trace w)) rules text))
    as C.
  rewrite rule_outcomes_length in C. change (length rules) with 6 in C.
  repeat split; lia.
Qed.

(** ** Saving, further *)

(** Paths as [pathlib] reads them: the root of an absolute path is kept,
    two leading slashes are told from one and from three, empty components
    and [.] are dropped, [..] is kept, and the parent of a path without
    components is the path itself. *)
Example path_samples :
  map (fun s => Path.to_str (Path.of_str s))
    ["/tmp/out/report.json"; "./out/./report.json"; "out//report.json";
     "//host/share"; "///tmp"; "out/"; "a/../b"; ""; "."; "/"]
  = ["/tmp/out/report.json"; "out/report.json"; "out/report.json";
     "//host/share"; "/tmp"; "out"; "a/../b"; "."; "."; "/"]
  /\ map (fun s => Path.to_str (Path.parent (Path.of_str s)))
       ["/tmp/out/report.json"; "report.json"; "/report.json"; "/"; "."]
     = ["/tmp/out"; "."; "/"; "/"; "."]
  /\ map (fun s => Path.to_str (Path.div (Path.of_str s) "extracted_text.txt"))
       ["/tmp/out"; "./out/"; ""; "/"; "a/./b"]
     = ["/tmp/out/extracted_text.txt"; "out/extracted_text.txt";
        "extracted_text.txt"; "/extracted_text.txt"; "a/b/extracted_text.txt"]
  /\ Path.to_str (Path.div (Path.of_str "out") "/etc/passwd") = "/etc/passwd".
Proof. repeat split; reflexivity. Qed.



(** ** The handler of the app *)

Section App.

Variable env : Env.

Lemma repeat_no_fs prompt n : Forall (fun ev => fs_event ev = false) (repeat (EvLLM prompt) n).
Proof. induction n; simpl; constructor; auto. Qed.

Lemma app_tasks_run w :
  exists evs,
    Forall (fun ev => fs_event ev = false) evs
    /\ app_tasks env w
       = (match pdfplumber_open env upload_file with
          | Raise e => Raise e
          | Ok pdf =>
              if key_ok env then
                match summary_answer env (length (trace w) + 2) (document_text pdf) with
                | Raise e => Raise e
                | Ok summary =>
                    Ok (document_text pdf,
                        after [ AddMetadata (datetime_now env (length (trace w) + 2))
                                  (pdf_info pdf);
                                AddTask1 (document_text pdf) temp_path;
                                AddTask2 summary;
                                AddTask3 (sections_outcome env
                                  (length (trace w) + 2
                                   + summary_calls env (length (trace w) + 2)
                                       (document_text pdf))
                                  (document_text pdf));
                                AddTask4 (rule_outcomes env
                                  (length (trace w) + 3
                                   + summary_calls env (length (trace w) + 2)
                                       (document_text pdf))
                                  rules (document_text pdf)) ])
                end
              else Raise "GEMINI_API_KEY not found in environment"
          end, with_events evs w).
Proof.
  unfold app_tasks, bind. change (Path.to_str temp_path) with upload_file.
  rewrite extract_text_run, log_with_events.
  destruct (pdfplumber_open env upload_file) as [pdf|e] eqn:O.
  2:{ eexists. split; [|reflexivity]. repeat constructor. }
  rewrite get_pdf_metadata_run, O, with_events_app. cbn [app].
  unfold now_isoformat. rewrite init_run.
  rewrite with_events_length. cbn [length].
  destruct (key_ok env).
  2:{ eexists. split; [|reflexivity]. repeat constructor. }
  rewrite summarize_run, with_events_app, with_events_length. cbn [length].
  destruct (summary_answer env (length (trace w) + 2) (document_text pdf))
    as [summary|e].
  2:{ eexists. split; [|reflexivity].
      apply Forall_app. split; [repeat constructor | apply repeat_no_fs]. }
  rewrite sections_run, rule_checks_run, !with_events_app.
  rewrite !with_events_length, !length_app, repeat_length. cbn [length].
  replace (length (trace w) + (2 + summary_calls env (length (trace w) + 2)
                                     (document_text pdf)))
    with (length (trace w) + 2
          + summary_calls env (length (trace w) + 2) (document_text pdf)) by lia.
  replace (length (trace w)
           + (2 + summary_calls env (length (trace w) + 2) (document_text pdf) + 1))
    with (length (trace w) + 3
          + summary_calls env (length (trace w) + 2) (document_text pdf)) by lia.
  eexists. split; [|reflexivity].
  repeat (apply Forall_app; split); auto using repeat_no_fs;
    repeat constructor.
Qed.

Lemma app_save_run text c w :
  app_save env text c w
  = if mkdir_ok env "output" then
      if open_w_ok env report_file then
        if open_w_ok env text_file then
          (Ok tt,
           {| files := <[text_file := utf8_encode text]>
                         (<[report_file :=
                              utf8_encode (Json.dumps (JDict (report c)))]> (files w));
              trace := trace w ++ [ EvMkdir "output"; EvWrite report_file;
                                    EvMkdir "output"; EvWrite text_file ] |})
        else
          failed_write env text_file text [EvMkdir "output"]
            {| files := <[report_file :=
                            utf8_encode (Json.dumps (JDict (report c)))]> (files w);
               trace := trace w ++ [EvMkdir "output"; EvWrite report_file] |}
      else
        match write_left env report_file with
        | None => (Raise ("cannot open " +:+ report_file),
                   with_events [EvMkdir "output"] w)
        | Some k => (Raise ("cannot write " +:+ report_file), report_cut c k w)
        end
    else (Raise ("cannot create directory " +:+ "output"), w).
Proof.
  unfold app_save, bind.
  pose proof (save_report_run env c w) as S.
  change report_path with "output/final_report.json" in S. rewrite S. clear S.
  unfold report_file.
  destruct (mkdir_ok env "output") eqn:D; [|reflexivity].
  destruct (open_w_ok env "output/final_report.json");
    [|destruct (write_left env "output/final_report.json"); reflexivity].
  match goal with
  | |- context [save_extracted_text env text "output" ?w1] =>
      pose proof (save_extracted_text_run env text w1) as T
  end.
  change (Path.to_str output_dir) with "output" in T. rewrite T, D. clear T.
  destruct (open_w_ok env text_file); cbn [trace files with_events].
  - unfold ret. rewrite <- ?app_assoc. reflexivity.
  - unfold failed_write. destruct (write_left env text_file); reflexivity.
Qed.

End App.

(** X19: in the app, an analysis that fails (the upload cannot be opened,
    no key, no summary) leaves the session state as it was and the file
    system untouched: it has only opened the upload and sent prompts.
    Unlike [main], the app has not saved the extracted text by then. *)
Theorem app_failure_leaves_nothing (env : Env) (st : SessionState) (w : World) :
  raises (app_tasks env) w ->
  fst (app_analysis env st w) = st
  /\ files (snd (app_analysis env st w)) = files w
  /\ exists evs,
       trace (snd (app_analysis env st w)) = trace w ++ evs
       /\ Forall (fun ev => fs_event ev = false) evs.
Proof.
  intros (e & w' & H). unfold app_analysis.
  destruct (app_tasks_run env w) as (evs & F & R).
  rewrite H. rewrite H in R. injection R as _ ->.
  split; [reflexivity|]. split; [reflexivity|]. exists evs. auto.
Qed.

Lemma app_failure_leaves_nothing_witness :
  fst (app_analysis Cases.env_no_key
         {| results := None; analysis_complete := false |} Samples.w0)
  = {| results := None; analysis_complete := false |}
  /\ files (snd (app_analysis Cases.env_no_key
                   {| results := None; analysis_complete := false |} Samples.w0))
     = files Samples.w0.
Proof.
  destruct (app_failure_leaves_nothing Cases.env_no_key
              {| results := None; analysis_complete := false |} Samples.w0)
    as (S & F & _).
  - exists "GEMINI_API_KEY not found in environment".
    exists (snd (app_tasks Cases.env_no_key Samples.w0)).
    vm_compute. reflexivity.
  - split; assumption.
Defined.

(** X20: in the app, once the four tasks have returned, the report is in
    the session state and [analysis_complete] is set, whatever happens to
    the saves that follow.  The report is saved first and the text second.
    When output/ cannot be made no file changes.  When the write of the
    report does not go through, the text file is never written: no file
    changes if the report could not be opened, and otherwise the report
    holds the bytes written before the exception and nothing else changes.
    When the report is written, output/final_report.json holds it whatever
    happens to the text file, which holds the text, or is as it was, or
    holds the bytes of the text written before the exception. *)
Theorem app_results_outlive_saves (env : Env) (st : SessionState) (w w1 : World)
    (text : string) (c : JSONCompiler) :
  app_tasks env w = (Ok (text, c), w1) ->
  fst (app_analysis env st w)
  = {| results := Some (report c); analysis_complete := true |}
  /\ files w1 = files w
  /\ (mkdir_ok env "output" = false ->
      files (snd (app_analysis env st w)) = files w)
  /\ (mkdir_ok env "output" = true -> open_w_ok env report_file = false ->
      files (snd (app_analysis env st w))
      = match write_left env report_file with
        | None => files w
        | Some k =>
            <[report_file := take k (utf8_encode (Json.dumps (JDict (report c))))]>
              (files w)
        end)
  /\ (mkdir_ok env "output" = true -> open_w_ok env report_file = true ->
      files (snd (app_analysis env st w)) !! report_file
      = Some (utf8_encode (Json.dumps (JDict (report c))))
      /\ files (snd (app_analysis env st w))
         = (if open_w_ok env text_file then <[text_file := utf8_encode text]>
            else match write_left env text_file with
                 | None => fun fs => fs
                 | Some k => <[text_file := take k (utf8_encode text)]>
                 end)
             (<[report_file := utf8_encode (Json.dumps (JDict (report c)))]>
                (files w))).
Proof.
  intros H. unfold app_analysis.
  destruct (app_tasks_run env w) as (evs & F & R).
  rewrite H. rewrite H in R. injection R as _ ->.
  rewrite app_save_run. unfold generate_report.
  assert (text_file <> report_file) as N by discriminate.
  split; [reflexivity|]. split; [reflexivity|]. split; [|split].
  - intros D. rewrite D. reflexivity.
  - intros D O. rewrite D, O. destruct (write_left env report_file); reflexivity.
  - intros D O. rewrite D, O. unfold failed_write.
    destruct (open_w_ok env text_file);
      [|destruct (write_left env text_file)]; cbn [snd files with_events];
      rewrite ?(lookup_insert_ne _ text_file) by congruence;
      rewrite lookup_insert_eq; auto.
Qed.

(** The report stops after two bytes: the results are in the session
    state, the report on disk is cut short and the text file was never
    written. *)
Lemma app_results_outlive_saves_witness :
  analysis_complete
    (fst (app_analysis Cases.env_report_cut
            {| results := None; analysis_complete := false |} Samples.w0))
  = true
  /\ files (snd (app_analysis Cases.env_report_cut
                   {| results := None; analysis_complete := false |} Samples.w0))
     = {[report_file := utf8_encode ("{" +:+ NL)]}.
Proof.
  destruct (app_results_outlive_saves Cases.env_report_cut
              {| results := None; analysis_complete := false |} Samples.w0
              (snd (app_tasks Cases.env_report_cut Samples.w0))
              (fst (Samples.value_of ("", JSONCompiler_init)
                      (fst (app_tasks Cases.env_report_cut Samples.w0))))
              (snd (Samples.value_of ("", JSONCompiler_init)
                      (fst (app_tasks Cases.env_report_cut Samples.w0)))))
    as (S & _ & _ & F & _).
  - vm_compute. reflexivity.
  - split; [rewrite S; reflexivity|].
    rewrite (F eq_refl eq_refl). vm_compute. reflexivity.
Defined.

(** ** Lines, pages and prompts *)

Section Lines.

Lemma stripped_lines_cleaned content :
  stripped_lines content = cleaned_lines (split_on nl content).
Proof.
  unfold stripped_lines. induction (split_on nl content) as [|l ls IH];
    [reflexivity|].
  simpl. destruct (truthy (strip l)); simpl; rewrite IH; reflexivity.
Qed.

Lemma split_on_app sep a r :
  split_on sep (a +:+ String sep r) = split_on sep a ++ split_on sep r.
Proof.
  induction a as [|c a IH]; [simpl; rewrite Ascii.eqb_refl; reflexivity|].
  rewrite app_String. simpl. rewrite IH.
  destruct (Ascii.eqb c sep); [reflexivity|].
  pose proof (split_on_not_nil sep a) as NN.
  destruct (split_on sep a); [congruence | reflexivity].
Qed.

Lemma cleaned_lines_app a b :
  cleaned_lines (a ++ b) = cleaned_lines a ++ cleaned_lines b.
Proof.
  induction a as [|l a IH]; [reflexivity|]. simpl.
  destruct (truthy (strip l)); simpl; rewrite IH; reflexivity.
Qed.

Lemma cleaned_lines_pages ts :
  cleaned_lines (split_on nl (join (NL +:+ NL) ts))
  = flat_map (fun t => cleaned_lines (split_on nl t)) ts.
Proof.
  induction ts as [|t rest IH]; [reflexivity|].
  destruct rest as [|t' rest].
  - simpl. rewrite app_nil_r. reflexivity.
  - rewrite join_cons2.
    change (t +:+ (NL +:+ NL) +:+ join (NL +:+ NL) (t' :: rest))
      with (t +:+ String nl (String nl (join (NL +:+ NL) (t' :: rest)))).
    rewrite split_on_app, cleaned_lines_app.
    change (split_on nl (String nl (join (NL +:+ NL) (t' :: rest))))
      with ("" :: split_on nl (join (NL +:+ NL) (t' :: rest))).
    change (cleaned_lines ("" :: split_on nl (join (NL +:+ NL) (t' :: rest))))
      with (cleaned_lines (split_on nl (join (NL +:+ NL) (t' :: rest)))).
    rewrite IH. reflexivity.
Qed.

Lemma slice_to_length_min n s :
  N.of_nat (String.length (slice_to n s)) = N.min n (N.of_nat (String.length s)).
Proof.
  revert n. induction s as [|c s IH]; intros n; simpl String.length.
  - simpl. lia.
  - simpl slice_to. destruct (N.eqb_spec n 0) as [->|N0]; [simpl; lia|].
    simpl String.length. specialize (IH (N.pred n)). lia.
Qed.

Lemma prompt_length instructions text :
  instructions <> [] ->
  N.of_nat (String.length (join NL (instructions ++ [slice_to text_limit text; ""])))
  = (N.of_nat (String.length (join NL (instructions ++ [""]))) + 1
     + N.min 20000 (N.of_nat (String.length text)))%N.
Proof.
  intros NN. rewrite join_text_last by exact NN.
  rewrite !sapp_length, !Nat2N.inj_add, slice_to_length_min.
  change (N.of_nat (String.length NL)) with 1%N. unfold text_limit. lia.
Qed.

End Lines.

(** X21: the points of the fallback of [summarize_act] are the lines of the
    cleaned reply: for a reply [content] the list comprehension gives
    exactly the lines of [clean_text content], so the summary is the first
    10 of them, and it is empty exactly when the reply holds nothing but
    whitespace. *)
Theorem fallback_points_are_clean_lines (content : string) :
  stripped_lines content = lines_of (clean_text content)
  /\ (list_slice_to 10 (stripped_lines content) = [] <-> all_space content = true).
Proof.
  destruct (clean_text_lines content) as [E _].
  assert (stripped_lines content = lines_of (clean_text content)) as S
    by (rewrite E; apply stripped_lines_cleaned).
  split; [exact S|].
  rewrite <- clean_text_is_empty, S. unfold list_slice_to, lines_of.
  destruct (clean_text content) as [|c s] eqn:T; [simpl; tauto|].
  pose proof (split_on_not_nil nl (String c s)) as NN.
  destruct (split_on nl (String c s)); [congruence|].
  simpl. split; discriminate.
Qed.

(** X22: no prompt grows with the document beyond the cap: the summary
    prompt has 456 characters plus the first 20,000 of the text at most, the
    section prompt 546 plus the same, and the prompt of a rule 314 plus the
    rule plus the same, which is at most 20,378 characters for each of the
    six rules. *)
Theorem prompt_lengths (text : string) :
  (N.of_nat (String.length (summary_prompt text))
   = 456 + N.min 20000 (N.of_nat (String.length text)))%N
  /\ (N.of_nat (String.length (sections_prompt text))
      = 546 + N.min 20000 (N.of_nat (String.length text)))%N
  /\ (forall rule,
        N.of_nat (String.length (rule_prompt rule text))
        = 314 + N.of_nat (String.length rule)
          + N.min 20000 (N.of_nat (String.length text)))%N
  /\ (forall rule, In rule rules ->
        N.of_nat (String.length (rule_prompt rule text)) <= 20378)%N.
Proof.
  assert (forall rule,
             N.of_nat (String.length (rule_prompt rule text))
             = 314 + N.of_nat (String.length rule)
               + N.min 20000 (N.of_nat (String.length text)))%N as R.
  { intros rule. unfold rule_prompt. rewrite prompt_length by discriminate.
    rewrite join_nl_length. unfold rule_instructions.
    cbn [app map list_sum foldr]. rewrite !sapp_length.
    cbn [String.length dq]. lia. }
  split; [|split; [|split; [exact R|]]].
  - unfold summary_prompt. rewrite prompt_length by discriminate.
    change (N.of_nat (String.length (join NL (summary_instructions ++ [""]))))
      with 455%N. lia.
  - unfold sections_prompt. rewrite prompt_length by discriminate.
    change (N.of_nat (String.length (join NL (sections_instructions ++ [""]))))
      with 545%N. lia.
  - intros rule Hin. rewrite R. simpl in Hin.
    repeat (destruct Hin as [<-|Hin]; [simpl String.length; lia|]). destruct Hin.
Qed.

(** X23: page boundaries add no line and merge no lines: the lines of the
    text of a document are the lines of the cleaned text of its pages, page
    after page (pages without text give none). *)
Theorem document_lines_by_page (pdf : Pdf) :
  lines_of (document_text pdf)
  = flat_map (fun t => lines_of (clean_text t)) (text_content (pages pdf)).
Proof.
  unfold document_text.
  destruct (clean_text_lines (join (NL +:+ NL) (text_content (pages pdf))))
    as [E _].
  rewrite E, cleaned_lines_pages. clear E.
  induction (text_content (pages pdf)) as [|t ts IH]; [reflexivity|].
  simpl. rewrite IH. destruct (clean_text_lines t) as [-> _]. reflexivity.
Qed.

(** ** The shape of a saved report *)

Section Shape.

Variable env : Env.

Lemma rule_outcomes_keys rs text :
  forall t,
    Forall (fun r => PyDict.keys r = ["rule"; "status"; "evidence"; "confidence"])
      (rule_outcomes env t rs text).
Proof.
  induction rs as [|rule rest IH]; intros t; simpl; constructor; [|apply IH].
  unfold rule_outcome.
  destruct (structured_rule env t (rule_prompt rule text)); reflexivity.
Qed.

Lemma summary_answer_points t text summary :
  summary_answer env t text = Ok summary ->
  exists points,
    summary = [("summary", JList (map JStr points))] /\ length points <= 10.
Proof.
  unfold summary_answer.
  destruct (structured_summary env t (summary_prompt text)) as [s|e].
  - intros [= <-]. exists (ActSummary_bullets s). split; [reflexivity|].
    simpl. lia.
  - destruct (llm_content env (S t) (summary_prompt text)) as [c|e'];
      [|discriminate].
    intros [= <-]. exists (list_slice_to 10 (stripped_lines c)).
    split; [reflexivity | apply list_slice_to_length].
Qed.

Lemma sections_outcome_keys t text :
  PyDict.keys (sections_outcome env t text) = section_fields.
Proof.
  unfold sections_outcome.
  destruct (structured_sections env t (sections_prompt text)); reflexivity.
Qed.

End Shape.

(** X24: every report that [main] saves has the same shape.  After a run
    that exits with code 0, output/final_report.json holds a report with
    the five sections in which: text_length is the number of characters of
    the text saved in output/extracted_text.txt and source_file is the path
    of the document; summary_points holds at most 10 strings; sections has
    exactly the seven keys; checks holds six entries, each with the keys
    rule, status, evidence and confidence, and total_rules is 6. *)
Theorem saved_report_shape (env : Env) (w w' : World) :
  main env w = (0%Z, w') ->
  exists c text points sections checks,
    files w' !! report_file = Some (utf8_encode (Json.dumps (JDict (report c))))
    /\ files w' !! text_file = Some (utf8_encode text)
    /\ PyDict.keys (report c) = five_sections
    /\ section_field "task1_text_extraction" "text_length" c
       = Some (JInt (Z.of_nat (String.length text)))
    /\ section_field "task1_text_extraction" "source_file" c
       = Some (JStr "data/ukpga_20250022_en.pdf")
    /\ section_field "task2_summary" "summary_points" c
       = Some (JList (map JStr points))
    /\ length points <= 10
    /\ section_field "task3_legislative_sections" "sections" c
       = Some (JDict sections)
    /\ PyDict.keys sections = section_fields
    /\ section_field "task4_rule_checks" "checks" c
       = Some (JList (map JDict checks))
    /\ section_field "task4_rule_checks" "total_rules" c = Some (JInt 6)
    /\ length checks = 6
    /\ Forall (fun r => PyDict.keys r = ["rule"; "status"; "evidence"; "confidence"])
         checks.
Proof.
  rewrite main_run, run_tasks_run. intros H.
  destruct (negb (path_exists env pdf_file)); [discriminate H|].
  destruct (pdfplumber_open env pdf_file) as [pdf|e]; [|discriminate H].
  destruct (mkdir_ok env "output"); [|discriminate H].
  destruct (open_w_ok env text_file);
    [|unfold failed_write in H; destruct (write_left env text_file);
      discriminate H].
  destruct (key_ok env); [|discriminate H].
  destruct (summary_answer env (length (trace w) + 4) (document_text pdf))
    as [summary|e] eqn:S; [|discriminate H].
  destruct (open_w_ok env report_file);
    [|destruct (write_left env report_file); discriminate H].
  injection H as <-.
  apply summary_answer_points in S as (points & -> & L).
  exists (run_report env (length (trace w)) pdf
            [("summary", JList (map JStr points))]),
    (document_text pdf), points,
    (sections_outcome env
       (length (trace w) + 4
        + summary_calls env (length (trace w) + 4) (document_text pdf))
       (document_text pdf)),
    (rule_outcomes env
       (length (trace w) + 5
        + summary_calls env (length (trace w) + 4) (document_text pdf))
       rules (document_text pdf)).
  assert (report_file <> text_file) as N by discriminate.
  cbn [files]. unfold with_text.
  split; [apply lookup_insert_eq|].
  split; [rewrite lookup_insert_ne, lookup_insert_eq by congruence; reflexivity|].
  split; [reflexivity|]. split; [reflexivity|]. split; [reflexivity|].
  split; [reflexivity|]. split; [exact L|]. split; [reflexivity|].
  split; [apply sections_outcome_keys|]. split; [reflexivity|].
  split; [|split; [apply rule_outcomes_length | apply rule_outcomes_keys]].
  unfold section_field, run_report, after. cbn [fold_left call].
  unfold add_task4_result. cbn [report]. rewrite get_set_eq.
  cbn [PyDict.get String.eqb Ascii.eqb Bool.eqb]. rewrite rule_outcomes_length.
  reflexivity.
Qed.

Lemma saved_report_shape_witness :
  exists c,
    files (snd (main Samples.env_degraded Samples.w0)) !! report_file
    = Some (utf8_encode (Json.dumps (JDict (report c))))
    /\ section_field "task4_rule_checks" "total_rules" c = Some (JInt 6).
Proof.
  destruct (saved_report_shape Samples.env_degraded Samples.w0
              (snd (main Samples.env_degraded Samples.w0)))
    as (c & text & points & sections & checks & F & _ & _ & _ & _ & _ & _ & _
        & _ & _ & T & _).
  - vm_compute. reflexivity.
  - exists c. split; assumption.
Defined.
